(** * FF.py: one sigmoid layer, forward pass and L2-regularised update

    A shallow embedding of the class [NNUnit] of [FF.py], for CPython 3
    and NumPy on a 64-bit platform.

    - The arrays of the object hold real numbers ([R]): this is the
      reading of [float64] in exact arithmetic, used for what the
      methods store where.  What [float64] itself does to line 16
      (rounding, overflow) is stated on binary64 numbers, see
      [calcActivation_f64].
    - A one-dimensional array is a [list R]; a two-dimensional array is
      an [ndarray2]: its shape together with its rows.
    - A method is a function from the object before the call to the
      object after the call paired with the outcome, so that what an
      exception leaves behind in the object stays visible.
    - Where NumPy releases differ (line 21), the release is an argument
      of the method, see [numpy_release]. *)

From Stdlib Require Import Floats.
From Stdlib Require Import Reals Lra Lia ZArith List.
From stdpp Require Import base list.

Open Scope R_scope.

(** ** Exceptions and outcomes *)

Inductive exn : Type :=
  | IndexError
  | ValueError
  | TypeError
  | ZeroDivisionError
  | OverflowError
  | MemoryError.

Definition result (A : Type) : Type := (exn + A)%type.

Definition or_raise {A : Type} (e : exn) (o : option A) : result A :=
  match o with
  | Some v => inr v
  | None => inl e
  end.

(** ** Arrays *)

Record ndarray2 : Type := Nd2 {
  shape0 : nat;
  shape1 : nat;
  cells : list (list R)
}.

(** Every array NumPy builds is rectangular. *)
Definition rect (m : ndarray2) : Prop :=
  length (cells m) = shape0 m ∧
  Forall (λ row : list R, length row = shape1 m) (cells m).

Definition has_shape (m : ndarray2) (r c : nat) : Prop :=
  shape0 m = r ∧ shape1 m = c ∧ rect m.

(** [m[i]] for [0 <= i]. *)
Definition getitem (m : ndarray2) (i : nat) : result (list R) :=
  or_raise IndexError (cells m !! i).

(** [v[j]] on a one-dimensional array, for [0 <= j]. *)
Definition getitem1 (v : list R) (j : nat) : result R :=
  or_raise IndexError (v !! j).

(** [np.transpose] of a two-dimensional array. *)
Definition np_transpose (m : ndarray2) : ndarray2 :=
  Nd2 (shape1 m) (shape0 m)
      (map (λ j : nat, map (λ row : list R, nth j row 0) (cells m))
           (seq 0 (shape1 m))).

(** [np.transpose] of a one-dimensional array returns it as it is. *)
Definition np_transpose1 (v : list R) : list R := v.

Definition sum_products (u v : list R) : R :=
  foldr Rplus 0 (zip_with Rmult u v).

(** [np.matmul] of two one-dimensional arrays: their inner product, and
    a [ValueError] when the lengths differ. *)
Definition np_matmul (u v : list R) : result R :=
  if Nat.eqb (length u) (length v) then inr (sum_products u v)
  else inl ValueError.

(** [range(n)] for a Python integer [n]. *)
Definition range (n : Z) : list nat := seq 0 (Z.to_nat n).

(** ** The object

    [b] is the [(n_classes, 1)] array of line 9, [w] the
    [(n_classes, n_pu)] array of line 10.  Line 13, which is to build
    [a], raises (see [__init__] below); [a] has the shape the data model
    of the specification gives it, a one-dimensional array.  [oldb],
    [oldw] and [prev_x] start as [None]. *)

Record NNUnit : Type := MkUnit {
  nc : Z;
  pu : Z;
  b : ndarray2;
  w : ndarray2;
  oldb : option ndarray2;
  oldw : option ndarray2;
  a : list R;
  prev_x : option ndarray2
}.

Definition set_b (v : ndarray2) (u : NNUnit) : NNUnit :=
  MkUnit (nc u) (pu u) v (w u) (oldb u) (oldw u) (a u) (prev_x u).
Definition set_w (v : ndarray2) (u : NNUnit) : NNUnit :=
  MkUnit (nc u) (pu u) (b u) v (oldb u) (oldw u) (a u) (prev_x u).
Definition set_oldb (v : option ndarray2) (u : NNUnit) : NNUnit :=
  MkUnit (nc u) (pu u) (b u) (w u) v (oldw u) (a u) (prev_x u).
Definition set_oldw (v : option ndarray2) (u : NNUnit) : NNUnit :=
  MkUnit (nc u) (pu u) (b u) (w u) (oldb u) v (a u) (prev_x u).
Definition set_a (v : list R) (u : NNUnit) : NNUnit :=
  MkUnit (nc u) (pu u) (b u) (w u) (oldb u) (oldw u) v (prev_x u).
Definition set_prev_x (v : option ndarray2) (u : NNUnit) : NNUnit :=
  MkUnit (nc u) (pu u) (b u) (w u) (oldb u) (oldw u) (a u) v.

(** ** Methods as state transformers that may raise *)

Definition M (A : Type) : Type := NNUnit → NNUnit * result A.

Definition raise {A : Type} (e : exn) : M A := λ u, (u, inl e).

#[global] Instance M_ret : MRet M := λ A v u, (u, inr v).

#[global] Instance M_bind : MBind M := λ A B k m u,
  match m u with
  | (u', inr v) => k v u'
  | (u', inl e) => (u', inl e)
  end.

Definition self : M NNUnit := λ u, (u, inr u).

Definition assign (f : NNUnit → NNUnit) : M unit := λ u, (f u, inr tt).

Definition try {A : Type} (r : result A) : M A := λ u, (u, r).

(** [for i in l: body i] *)
Fixpoint for_ (l : list nat) (body : nat → M unit) : M unit :=
  match l with
  | [] => mret tt
  | i :: l' => body i;; for_ l' body
  end.

(** ** [calcActivation] *)

Definition calcActivation (x : R) : R := 1 / (1 + exp (- x)).

(** On an array each NumPy operation of the expression works entry by
    entry: [-x], then [np.exp], then [1 + _], then [1 / _]. *)
Definition calcActivation_nd (x : list R) : list R :=
  map (Rdiv 1) (map (Rplus 1) (map exp (map Ropp x))).

(** The method takes [self] and does not touch it. *)
Definition calcActivation_method (x : list R) : M (list R) :=
  mret (calcActivation_nd x).

(** ** [calcActivation] on binary64 numbers

    Line 16 as [float64] computes it: negation, [np.exp], one addition
    and one division, each rounded to the nearest binary64 number.
    [np.exp] is the routine of the NumPy build; it is an argument.  With
    NumPy's error handling as it starts out, an overflow in [np.exp]
    warns and gives infinity; nothing is raised. *)

Definition calcActivation_f64 (np_exp : float → float) (x : float) : float :=
  (1 / (1 + np_exp (- x)))%float.




(** ** The exponential rounded to nearest

    NumPy's [np.exp] is accurate to the last place but not specified bit
    for bit.  [exp_nearest] is the routine such a build approximates:
    [e^x] rounded to the nearest binary64 number.  It encloses [e^x]
    between two integers scaled by a power of two, with [ln 2] from its
    series and [e^r] from its Taylor series on [0.3 < r < 1.1], and
    returns the binary64 number both ends round to, with more digits
    when they differ. *)

Definition signed_mantissa (f : float) : Z * Z :=
  match Prim2SF f with
  | S754_finite s m e => (if s then Zneg m else Zpos m, e)
  | _ => (0%Z, 0%Z)
  end.

(** The largest integer not above a finite [f]. *)
Definition floor_Z (f : float) : Z :=
  let '(m, e) := signed_mantissa f in Z.shiftl m e.

(** [ln 2 = 1/(1*2) + 1/(2*4) + 1/(3*8) + ...]: the sum of the first
    [P] terms, each cut to a multiple of [2^-P], is below [ln 2] by
    less than [(P + 1) * 2^-P]. *)
Definition ln2_below (P : Z) : Z :=
  fold_left (λ S n, (S + 2 ^ P / (n * 2 ^ n))%Z)
            (map Z.of_nat (seq 1 (Z.to_nat P))) 0%Z.

(** Lower and upper sums of [1 + r + r^2/2! + ...], scaled by [2^P],
    for [rl <= r * 2^P <= rh] and [0 < r < 1.1]; the terms left out
    add up to less than the last one. *)
Fixpoint exp_series (fuel : nat) (n P rl rh tl th sl sh : Z) : Z * Z :=
  match fuel with
  | O => (sl, (sh + th)%Z)
  | S fuel' =>
      let tl' := (tl * rl / (n * 2 ^ P))%Z in
      let th' := (th * rh / (n * 2 ^ P) + 1)%Z in
      exp_series fuel' (n + 1)%Z P rl rh tl' th' (sl + tl')%Z (sh + th')%Z
  end.

(** [e^x = 2^k * e^r] for [x = m * 2^e] and [r = x - k * ln 2]: both
    ends of the enclosure, rounded. *)
Definition exp_bounds (P k m e : Z) : float * float :=
  let X := Z.shiftl m (P + e) in
  let Ll := ln2_below P in
  let Lh := (Ll + P + 1)%Z in
  let rl := if (0 <=? k)%Z then (X - k * Lh)%Z else (X - k * Ll)%Z in
  let rh := if (0 <=? k)%Z then (X - k * Ll)%Z else (X - k * Lh)%Z in
  let '(sl, sh) :=
    exp_series (Z.to_nat P) 1 P rl rh (2 ^ P) (2 ^ P) (2 ^ P) (2 ^ P) in
  (SF2Prim (binary_normalize prec emax sl (k - P) false),
   SF2Prim (binary_normalize prec emax sh (k - P) false)).

Fixpoint exp_try (Ps : list Z) (k m e : Z) : float :=
  match Ps with
  | [] => nan
  | P :: Ps' =>
      let '(lo, hi) := exp_bounds P k m e in
      if (lo =? hi)%float then lo else exp_try Ps' k m e
  end.

Definition exp_nearest (x : float) : float :=
  match PrimFloat.classify x with
  | NaN => x
  | PInf => x
  | NInf => 0%float
  | _ =>
      if (PrimFloat.abs x <=? 0x1p-55)%float then 1%float
      else if (710 <? x)%float then infinity
      else if (x <? -746)%float then 0%float
      else
        let k := (floor_Z (x * 0x1.71547652b82fep+0 + 0.5)%float - 1)%Z in
        let '(m, e) := signed_mantissa x in
        exp_try [128; 256; 512; 1024]%Z k m e
  end.

(** ** [CalcOut] *)

(** NumPy changed what line 21 does.  Up to release 2.3 a one-element
    array stored into an entry of a [float64] array is converted to its
    value (deprecated since 1.25); from release 2.4 on, the store raises
    a [ValueError], as it always did for an array of another size. *)
Inductive numpy_release : Type :=
  | upto_2_3
  | from_2_4.

(** [v[i] = x] where [v] is one-dimensional and [x] is an array. *)
Definition setitem1 (rel : numpy_release) (v : list R) (i : nat)
    (x : list R) : result (list R) :=
  if (i <? length v)%nat then
    match rel, x with
    | upto_2_3, [y] => inr (<[i:=y]> v)
    | _, _ => inl ValueError
    end
  else inl IndexError.

Definition CalcOut_body (rel : numpy_release) (x : ndarray2) (i : nat)
    : M unit :=
  s ← self;
  wi ← try (getitem (w s) i);
  xi ← try (getitem (np_transpose x) i);
  d ← try (np_matmul wi (np_transpose1 xi));
  bi ← try (getitem (b s) i);
  act ← calcActivation_method (map (Rplus d) bi);
  s' ← self;
  a' ← try (setitem1 rel (a s') i act);
  assign (set_a a').

Definition CalcOut (rel : numpy_release) (x : ndarray2) : M unit :=
  assign (set_prev_x (Some x));;
  s ← self;
  for_ (range (nc s)) (CalcOut_body rel x).

(** ** [UpdateWB] *)

(** [m[i][j] = x] on a two-dimensional array. *)
Definition setitem2 (m : ndarray2) (i j : nat) (x : R) : result ndarray2 :=
  match cells m !! i with
  | Some row =>
      if (j <? length row)%nat
      then inr (Nd2 (shape0 m) (shape1 m) (<[i:=<[j:=x]> row]> (cells m)))
      else inl IndexError
  | None => inl IndexError
  end.

(** [float(n)] for a Python integer [n]: the integers that round to a
    binary64 number are those below [2**1024 - 2**970] in absolute
    value; for the others Python raises an [OverflowError]. *)
Definition float_max_int : Z := 2 ^ 1024 - 2 ^ 970.

Definition float_of_int (n : Z) : result R :=
  if (Z.abs n <? float_max_int)%Z then inr (IZR n) else inl OverflowError.

(** [x / n] for a float [x] and a Python integer [n]: [n] is converted
    to a float first, and a zero divisor raises. *)
Definition truediv (x : R) (n : Z) : result R :=
  match float_of_int n with
  | inl e => inl e
  | inr d => if (n =? 0)%Z then inl ZeroDivisionError else inr (x / d)
  end.

(** The batch sizes line 29 divides by: not zero, and converted by
    [float]. *)
Definition divisor (n : Z) : Prop :=
  n ≠ 0%Z ∧ (Z.abs n < float_max_int)%Z.

(** [np.array(m)]: a copy of [m]. *)
Definition np_array (m : ndarray2) : ndarray2 := m.

Definition UpdateWB_bias (db : ndarray2) (lr : R) (i : nat) : M unit :=
  s ← self;
  bi ← try (getitem (b s) i);
  bi0 ← try (getitem1 bi 0);
  dbi ← try (getitem db i);
  dbi0 ← try (getitem1 dbi 0);
  s' ← self;
  b' ← try (setitem2 (b s') i 0 (bi0 - lr * dbi0));
  assign (set_b b').

Definition UpdateWB_weight (dw : ndarray2) (lr regH : R) (b_size : Z)
    (i j : nat) : M unit :=
  q ← try (truediv (regH * lr) b_size);
  s ← self;
  wi ← try (getitem (w s) i);
  wij ← try (getitem1 wi j);
  dwi ← try (getitem dw i);
  dwij ← try (getitem1 dwi j);
  s' ← self;
  w' ← try (setitem2 (w s') i j ((1 - q) * wij - lr * dwij));
  assign (set_w w').

Definition UpdateWB (dw db : ndarray2) (lr regH : R) (b_size : Z) : M unit :=
  s ← self;
  assign (set_oldb (Some (np_array (b s))));;
  s ← self;
  assign (set_oldw (Some (np_array (w s))));;
  s ← self;
  for_ (range (nc s)) (UpdateWB_bias db lr);;
  s ← self;
  for_ (range (nc s)) (λ i,
    s ← self;
    for_ (range (pu s)) (UpdateWB_weight dw lr regH b_size i)).

(** ** [__init__] *)

#[global] Instance result_ret : MRet result := λ A v, inr v.

#[global] Instance result_bind : MBind result := λ A B k r,
  match r with
  | inr v => k v
  | inl e => inl e
  end.

(** [np.random.seed(seed)] accepts a seed between 0 and 2**32 - 1. *)
Definition np_random_seed (seed : Z) : result unit :=
  if ((0 <=? seed) && (seed <? 2 ^ 32))%Z then inr tt else inl ValueError.

(** What [np.zeros] is given as its second positional argument, the
    [dtype]: nothing, or a Python integer. *)
Inductive dtype_arg : Type :=
  | dtype_default
  | dtype_int (n : Z).

(** Room for a new [float64] array of [r] by [c] entries.  NumPy
    refuses with a [ValueError] a negative dimension, a dimension that
    is no index of the platform ([2**63] and up) and an array of
    [2**63] bytes or more, counting a dimension of zero as one; what
    remains is asked of the allocator, which either grants the entries
    ([fits]) or fails with a [MemoryError]. *)
Definition np_alloc (fits : Z → bool) (r c : Z) : result unit :=
  if ((r <? 0) || (c <? 0))%Z then inl ValueError
  else if ((2 ^ 63 <=? r) || (2 ^ 63 <=? c)
           || (2 ^ 63 <=? 8 * (Z.max r 1 * Z.max c 1)))%Z then inl ValueError
  else if fits (r * c)%Z then inr tt
  else inl MemoryError.

(** [np.zeros((r, c))] and [np.zeros((r, c), dtype)]. *)
Definition np_zeros2 (fits : Z → bool) (r c : Z) (dtype : dtype_arg)
    : result ndarray2 :=
  match dtype with
  | dtype_int _ => inl TypeError
  | dtype_default =>
      np_alloc fits r c;;
      mret (Nd2 (Z.to_nat r) (Z.to_nat c)
                (replicate (Z.to_nat r) (replicate (Z.to_nat c) 0)))
  end.

(** [np.zeros(n)] and [np.zeros(n, dtype)]: an integer is not a data
    type, and NumPy answers with a [TypeError]. *)
Definition np_zeros1 (fits : Z → bool) (n : Z) (dtype : dtype_arg)
    : result (list R) :=
  match dtype with
  | dtype_int _ => inl TypeError
  | dtype_default =>
      np_alloc fits n 1;;
      mret (replicate (Z.to_nat n) 0)
  end.

(** [np.random.randn(r, c)]; [draws i j] is the sample that lands in
    row [i], column [j]. *)
Definition np_random_randn (fits : Z → bool) (draws : nat → nat → R)
    (r c : Z) : result ndarray2 :=
  np_alloc fits r c;;
  mret (Nd2 (Z.to_nat r) (Z.to_nat c)
            (map (λ i, map (draws i) (seq 0 (Z.to_nat c)))
                 (seq 0 (Z.to_nat r)))).

(** [now] is [int(time.time())]; [fits n] tells whether the allocator
    grants an array of [n] entries. *)
Definition __init__ (fits : Z → bool) (now : Z) (draws : nat → nat → R)
    (n_classes n_pu : Z) : result NNUnit :=
  np_random_seed now;;
  b0 ← np_zeros2 fits n_classes 1 dtype_default;
  w0 ← np_random_randn fits draws n_classes n_pu;
  a0 ← np_zeros1 fits 1 (dtype_int n_classes);
  mret (MkUnit n_classes n_pu b0 w0 None None a0 None).

(** ** What the specification calls things *)


(** The [i]-th column of a matrix. *)
Definition column (i : nat) (m : ndarray2) : list R :=
  map (λ row : list R, nth i row 0) (cells m).

(** The objects of the data model: [weights] is [classCount] by
    [inputCount], [bias] holds [classCount] numbers (one per row of a
    one-column array), and so does [activation]. *)
Definition classCount (u : NNUnit) : nat := Z.to_nat (nc u).
Definition inputCount (u : NNUnit) : nat := Z.to_nat (pu u).

Record Unit_ok (u : NNUnit) : Prop := {
  weights_shape : has_shape (w u) (classCount u) (inputCount u);
  bias_shape : has_shape (b u) (classCount u) 1;
  activation_length : length (a u) = classCount u
}.

(** The number at row [i], column [j]. *)
Definition entry (m : ndarray2) (i j : nat) : option R :=
  row ← cells m !! i; row !! j.

(** The value the specification gives neuron [i]: [activate] of the dot
    product of weight row [i] with column [i] of the input, plus
    [bias[i]]. *)
Definition neuron (u : NNUnit) (x : ndarray2) (i : nat) (v : R) : Prop :=
  ∃ wi bi, cells (w u) !! i = Some wi ∧ cells (b u) !! i = Some [bi] ∧
           v = calcActivation (sum_products wi (column i x) + bi).

(** The value the specification gives [bias[i]] after an update. *)
Definition bias_step (u : NNUnit) (db : ndarray2) (lr : R) (i : nat) (v : R)
    : Prop :=
  ∃ bi dbi, entry (b u) i 0 = Some bi ∧ entry db i 0 = Some dbi ∧
            v = bi - lr * dbi.

(** The value the specification gives [weights[i][j]] after an update. *)
Definition weight_step (u : NNUnit) (dw : ndarray2) (lr regH : R)
    (b_size : Z) (i j : nat) (v : R) : Prop :=
  ∃ wij dwij, entry (w u) i j = Some wij ∧ entry dw i j = Some dwij ∧
              v = (1 - regH * lr / IZR b_size) * wij - lr * dwij.

(** ** Sample objects

    The layer of the specification's worked example: two neurons, three
    inputs each, weights [[1,0,0],[0,1,0]], zero bias; its input has one
    column per neuron. *)
Definition unit_2x3 : NNUnit :=
  MkUnit 2 3 (Nd2 2 1 [[0]; [0]]) (Nd2 2 3 [[1; 0; 0]; [0; 1; 0]])
         None None [0; 0] None.
Definition input_3x2 : ndarray2 := Nd2 3 2 [[1; 0]; [0; 1]; [0; 0]].

(** The same input with a third column, and gradients of several shapes. *)
Definition input_3x3 : ndarray2 := Nd2 3 3 [[1; 0; 7]; [0; 1; 7]; [0; 0; 7]].
Definition dw_2x3 : ndarray2 := Nd2 2 3 [[1; 1; 1]; [1; 1; 1]].
Definition dw_2x2 : ndarray2 := Nd2 2 2 [[1; 1]; [1; 1]].
Definition db_2x1 : ndarray2 := Nd2 2 1 [[1]; [1]].
Definition db_3x1 : ndarray2 := Nd2 3 1 [[1]; [1]; [1]].

(** ** Closed forms

    What a forward pass leaves at position [i] of [a], and what an
    update leaves in [b[i][0]] and [w[i][j]], read from the arrays with
    a default where an index is out of range. *)
Definition forward_value (u : NNUnit) (x : ndarray2) (i : nat) : R :=
  calcActivation
    (sum_products (nth i (cells (w u)) []) (column i x)
     + nth 0 (nth i (cells (b u)) []) 0).

Definition bias_value (m db : ndarray2) (lr : R) (i : nat) : R :=
  nth 0 (nth i (cells m) []) 0 - lr * nth 0 (nth i (cells db) []) 0.

(** ** The logistic function *)

Section Logistic.

Implicit Types x y : R.




Lemma calcActivation_nd_map (xs : list R) :
  calcActivation_nd xs = map calcActivation xs.
Proof.
  unfold calcActivation_nd. induction xs as [|x xs IH]; [reflexivity|].
  cbn [map]. f_equal. exact IH.
Qed.




End Logistic.

(** ** Reasoning about methods *)

Section Methods.

Context {A B C : Type}.

(** The laws of a monad, at every object. *)
Lemma ret_bind (v : A) (k : A → M B) (u : NNUnit) : (mret v ≫= k) u = k v u.
Proof. reflexivity. Qed.

Lemma bind_ret (m : M A) (u : NNUnit) : (m ≫= mret) u = m u.
Proof. unfold mbind, M_bind. by destruct (m u) as [u' [e|v]]. Qed.

Lemma bind_bind (m : M A) (k : A → M B) (h : B → M C) (u : NNUnit) :
  ((m ≫= k) ≫= h) u = (m ≫= λ v, k v ≫= h) u.
Proof. unfold mbind, M_bind. by destruct (m u) as [u' [e|v]]. Qed.

(** An exception ends the method with the object as it then is. *)
Lemma raise_bind (e : exn) (k : A → M B) (u : NNUnit) :
  (raise e ≫= k) u = (u, inl e).
Proof. reflexivity. Qed.

End Methods.

Section Loops.

Variable body : nat → M unit.


Lemma for_cons i l u :
  for_ (i :: l) body u =
  match body i u with
  | (u', inr _) => for_ l body u'
  | (u', inl e) => (u', inl e)
  end.
Proof. reflexivity. Qed.

(** What every pass keeps, the loop keeps, whether it ends or raises. *)
Lemma for_keeps (P : NNUnit → Prop) l :
  (∀ i u, P u → P (body i u).1) →
  ∀ u, P u → P (for_ l body u).1.
Proof.
  intros Hbody. induction l as [|i l IH]; intros u Hu; [exact Hu|].
  rewrite for_cons. specialize (Hbody i u Hu).
  destruct (body i u) as [u' [e|[]]]; cbn in *; auto.
Qed.

(** A pass that raises wherever [P] holds makes the loop raise. *)
Lemma for_raises (P : NNUnit → Prop) l i :
  i ∈ l →
  (∀ j u, P u → P (body j u).1) →
  (∀ u, P u → ∃ e, (body i u).2 = inl e) →
  ∀ u, P u → ∃ e, (for_ l body u).2 = inl e.
Proof.
  intros Hin Hkeep Hfail. induction l as [|j l IH]; intros u Hu.
  - inversion Hin.
  - rewrite for_cons. pose proof (Hkeep j u Hu) as Hu'.
    destruct (body j u) as [u' [e|[]]] eqn:E; cbn in *; [by eexists|].
    apply elem_of_cons in Hin as [->|Hin].
    + destruct (Hfail u Hu) as [e He]. rewrite E in He. discriminate.
    + by apply IH.
Qed.

(** [for k in range(n)] with an invariant indexed by the number of
    passes made: every pass ends and moves the invariant on. *)
Lemma for_range_ends (I : nat → NNUnit → Prop) (n : nat) :
  (∀ k u, (k < n)%nat → I k u →
          ∃ u', body k u = (u', inr tt) ∧ I (S k) u') →
  ∀ u, I O u → ∃ u', for_ (seq 0 n) body u = (u', inr tt) ∧ I n u'.
Proof.
  intros Hstep.
  assert (G : ∀ m k u, (k + m = n)%nat → I k u →
              ∃ u', for_ (seq k m) body u = (u', inr tt) ∧ I n u').
  { induction m as [|m IH]; intros k u Hk Hu.
    - exists u. replace n with k by lia. by split.
    - cbn [seq]. rewrite for_cons.
      destruct (Hstep k u) as (u1 & E & Hu1); [lia|done|].
      rewrite E. apply IH; [lia|done]. }
  intros u Hu. by apply (G n O u).
Qed.


End Loops.

(** ** Arrays: looking entries up *)

Lemma transpose_row (x : ndarray2) (i : nat) :
  (i < shape1 x)%nat → cells (np_transpose x) !! i = Some (column i x).
Proof.
  intros Hi. unfold np_transpose, column. cbn [cells].
  rewrite list_lookup_fmap, lookup_seq_lt by done. reflexivity.
Qed.

Lemma transpose_no_row (x : ndarray2) (i : nat) :
  (shape1 x ≤ i)%nat → cells (np_transpose x) !! i = None.
Proof.
  intros Hi. unfold np_transpose. cbn [cells].
  rewrite list_lookup_fmap, lookup_seq_ge by done. reflexivity.
Qed.

Lemma column_length (i : nat) (x : ndarray2) :
  rect x → length (column i x) = shape0 x.
Proof. intros [Hr _]. unfold column. by rewrite length_map. Qed.

Lemma rect_row (m : ndarray2) (i : nat) (row : list R) :
  rect m → cells m !! i = Some row → length row = shape1 m.
Proof.
  intros [_ Hc] Hrow. rewrite Forall_lookup in Hc. exact (Hc i row Hrow).
Qed.

Lemma rect_has_row (m : ndarray2) (i : nat) :
  rect m → (i < shape0 m)%nat → ∃ row, cells m !! i = Some row.
Proof.
  intros [Hr _] Hi. apply lookup_lt_is_Some. by rewrite Hr.
Qed.

Lemma one_column_row (m : ndarray2) (i : nat) (row : list R) :
  rect m → shape1 m = 1%nat → cells m !! i = Some row → ∃ v, row = [v].
Proof.
  intros Hm H1 Hrow. pose proof (rect_row m i row Hm Hrow) as Hlen.
  rewrite H1 in Hlen. destruct row as [|v [|? ?]]; try discriminate.
  by exists v.
Qed.

(** ** [CalcOut]: one pass of the loop *)

(** With NumPy up to 2.3, a pass whose indices are in range writes its
    activation. *)
Lemma CalcOut_body_run (x : ndarray2) (i : nat) (s : NNUnit)
    (wi xi : list R) (bi0 : R) :
  cells (w s) !! i = Some wi →
  cells (np_transpose x) !! i = Some xi →
  length wi = length xi →
  cells (b s) !! i = Some [bi0] →
  (i < length (a s))%nat →
  CalcOut_body upto_2_3 x i s =
    (set_a (<[i:=calcActivation (sum_products wi xi + bi0)]> (a s)) s, inr tt).
Proof.
  intros Hw Hx Hlen Hb Ha.
  unfold CalcOut_body, mbind, M_bind, self, try, assign,
    calcActivation_method, mret, M_ret, getitem, np_matmul, np_transpose1,
    setitem1.
  rewrite Hw, Hx, Hb. cbn [or_raise].
  rewrite Hlen, Nat.eqb_refl.
  apply Nat.ltb_lt in Ha. rewrite Ha.
  rewrite calcActivation_nd_map. reflexivity.
Qed.


(** No pass touches anything but [a]. *)
Lemma CalcOut_body_frame (rel : numpy_release)
    (x : ndarray2) (i : nat) (s : NNUnit) :
  set_a (a s) (CalcOut_body rel x i s).1 = s.
Proof.
  unfold CalcOut_body, mbind, M_bind, self, try, assign,
    calcActivation_method, mret, M_ret.
  destruct s as [n p b0 w0 ob ow a0 px]. cbn.
  destruct (getitem w0 i) as [e|wi]; [done|].
  destruct (getitem (np_transpose x) i) as [e|xi]; [done|].
  destruct (np_matmul wi (np_transpose1 xi)) as [e|d]; [done|].
  destruct (getitem b0 i) as [e|bi]; [done|].
  destruct (setitem1 rel a0 i _) as [e|a']; done.
Qed.

(** ** [CalcOut]: the whole call *)

Lemma CalcOut_run (rel : numpy_release) (x : ndarray2) (u : NNUnit) :
  CalcOut rel x u =
    for_ (seq 0 (classCount u)) (CalcOut_body rel x) (set_prev_x (Some x) u).
Proof. reflexivity. Qed.

(** The forward pass on an input with at least [classCount] columns of
    length [inputCount], with NumPy up to 2.3. *)
Lemma CalcOut_ends (x : ndarray2) (u : NNUnit) :
  Unit_ok u → rect x → shape0 x = inputCount u →
  (classCount u ≤ shape1 x)%nat →
  ∃ u', CalcOut upto_2_3 x u = (u', inr tt) ∧
        set_a (a u) u' = set_prev_x (Some x) u ∧
        length (a u') = classCount u ∧
        ∀ i, (i < classCount u)%nat → ∃ v, a u' !! i = Some v ∧ neuron u x i v.
Proof.
  intros [(Hw0 & Hw1 & Hw) (Hb0 & Hb1 & Hb) Ha] Hx Hx0 Hx1.
  rewrite CalcOut_run.
  set (I := λ (k : nat) (s : NNUnit),
    set_a (a u) s = set_prev_x (Some x) u ∧
    length (a s) = classCount u ∧
    ∀ i, (i < k)%nat → ∃ v, a s !! i = Some v ∧ neuron u x i v).
  destruct (for_range_ends (CalcOut_body upto_2_3 x) I (classCount u)) with
    (u := set_prev_x (Some x) u) as (u' & E & Hfr & Hlen & Hval).
  - intros k s Hk (Hfr & Hlen & Hval).
    assert (Hws : w s = w u) by exact (f_equal w Hfr).
    assert (Hbs : b s = b u) by exact (f_equal b Hfr).
    destruct (rect_has_row (w u) k Hw) as [wi Hwi]; [lia|].
    destruct (rect_has_row (b u) k Hb) as [bi Hbi]; [lia|].
    destruct (one_column_row (b u) k bi Hb Hb1 Hbi) as [bi0 ->].
    eexists. split.
    + apply (CalcOut_body_run x k s wi (column k x) bi0).
      * by rewrite Hws.
      * apply transpose_row. lia.
      * rewrite (rect_row (w u) k wi Hw Hwi), column_length by done. lia.
      * by rewrite Hbs.
      * lia.
    + split; [exact Hfr|]. split; [cbn; by rewrite length_insert|].
      intros i Hi. cbn [a set_a].
      destruct (decide (i = k)) as [->|Hne].
      * eexists. split; [apply list_lookup_insert_eq; lia|].
        by exists wi, bi0.
      * rewrite list_lookup_insert_ne by done. apply Hval. lia.
  - split; [done|]. split; [done|]. intros i Hi. lia.
  - exists u'. done.
Qed.

(** ** Arrays: writing one entry *)

Lemma entry_row (m : ndarray2) (i j : nat) (row : list R) :
  cells m !! i = Some row → entry m i j = row !! j.
Proof. intros E. unfold entry. by rewrite E. Qed.

Lemma rect_has_entry (m : ndarray2) (i j : nat) :
  rect m → (i < shape0 m)%nat → (j < shape1 m)%nat →
  ∃ row v, cells m !! i = Some row ∧ row !! j = Some v.
Proof.
  intros Hm Hi Hj. destruct (rect_has_row m i Hm Hi) as [row Hrow].
  destruct (lookup_lt_is_Some_2 row j) as [v Hv].
  { by rewrite (rect_row m i row Hm Hrow). }
  by exists row, v.
Qed.

Section Setitem2.

Variables (m : ndarray2) (i j : nat) (x : R) (row : list R).
Hypothesis Hrow : cells m !! i = Some row.
Hypothesis Hj : (j < length row)%nat.

Let m' : ndarray2 := Nd2 (shape0 m) (shape1 m) (<[i:=<[j:=x]> row]> (cells m)).

Lemma setitem2_run : setitem2 m i j x = inr m'.
Proof.
  unfold setitem2. rewrite Hrow.
  apply Nat.ltb_lt in Hj. by rewrite Hj.
Qed.

Lemma setitem2_rect : rect m → rect m'.
Proof.
  intros [Hr Hc]. split; cbn; [by rewrite length_insert|].
  apply Forall_insert; [done|]. rewrite length_insert.
  rewrite Forall_lookup in Hc. exact (Hc i row Hrow).
Qed.

Lemma setitem2_entry_eq : entry m' i j = Some x.
Proof.
  unfold entry. cbn [cells m'].
  rewrite list_lookup_insert_eq by (by eapply lookup_lt_Some).
  cbn. by apply list_lookup_insert_eq.
Qed.

Lemma setitem2_entry_ne (i' j' : nat) :
  (i', j') ≠ (i, j) → entry m' i' j' = entry m i' j'.
Proof.
  intros Hne. unfold entry. cbn [cells m'].
  destruct (decide (i' = i)) as [->|Hi].
  - rewrite list_lookup_insert_eq by (by eapply lookup_lt_Some).
    rewrite Hrow. cbn. apply list_lookup_insert_ne. congruence.
  - by rewrite list_lookup_insert_ne.
Qed.

End Setitem2.

(** ** [UpdateWB]: one pass of each loop *)

Lemma UpdateWB_bias_run (db : ndarray2) (lr : R) (i : nat) (s : NNUnit)
    (bi dbi : list R) (bi0 dbi0 : R) :
  cells (b s) !! i = Some bi → bi !! 0%nat = Some bi0 →
  cells db !! i = Some dbi → dbi !! 0%nat = Some dbi0 →
  UpdateWB_bias db lr i s =
    (set_b (Nd2 (shape0 (b s)) (shape1 (b s))
                (<[i:=<[0%nat:=bi0 - lr * dbi0]> bi]> (cells (b s)))) s,
     inr tt).
Proof.
  intros Hb Hb0 Hd Hd0.
  unfold UpdateWB_bias, mbind, M_bind, self, try, assign, getitem, getitem1.
  rewrite Hb, Hd. cbn [or_raise]. rewrite Hb0, Hd0. cbn [or_raise].
  rewrite (setitem2_run (b s) i 0 _ bi Hb); [done|].
  by eapply lookup_lt_Some.
Qed.

Lemma truediv_divisor (x : R) (n : Z) :
  divisor n → truediv x n = inr (x / IZR n).
Proof.
  intros [Hn Hf]. unfold truediv, float_of_int.
  apply Z.ltb_lt in Hf. rewrite Hf.
  apply Z.eqb_neq in Hn. by rewrite Hn.
Qed.

Lemma UpdateWB_weight_run (dw : ndarray2) (lr regH : R) (b_size : Z)
    (i j : nat) (s : NNUnit) (wi dwi : list R) (wij dwij : R) :
  divisor b_size →
  cells (w s) !! i = Some wi → wi !! j = Some wij →
  cells dw !! i = Some dwi → dwi !! j = Some dwij →
  UpdateWB_weight dw lr regH b_size i j s =
    (set_w (Nd2 (shape0 (w s)) (shape1 (w s))
                (<[i:=<[j:=(1 - regH * lr / IZR b_size) * wij - lr * dwij]> wi]>
                   (cells (w s)))) s,
     inr tt).
Proof.
  intros Hn Hw Hwj Hd Hdj.
  unfold UpdateWB_weight, mbind, M_bind, self, try, assign, getitem,
    getitem1.
  rewrite (truediv_divisor _ _ Hn), Hw, Hd. cbn [or_raise].
  rewrite Hwj, Hdj. cbn [or_raise].
  rewrite (setitem2_run (w s) i j _ wi Hw); [done|].
  by eapply lookup_lt_Some.
Qed.

(** A pass of the bias loop touches nothing but [b], one of the weight
    loop nothing but [w], also when it raises. *)
Lemma UpdateWB_bias_frame (db : ndarray2) (lr : R) (i : nat) (s : NNUnit) :
  set_b (b s) (UpdateWB_bias db lr i s).1 = s.
Proof.
  unfold UpdateWB_bias, mbind, M_bind, self, try, assign.
  destruct s as [n p b0 w0 ob ow a0 px]. cbn.
  destruct (getitem b0 i) as [e|bi]; [done|].
  destruct (getitem1 bi 0) as [e|bi0]; [done|].
  destruct (getitem db i) as [e|dbi]; [done|].
  destruct (getitem1 dbi 0) as [e|dbi0]; [done|].
  destruct (setitem2 b0 i 0 _) as [e|b']; done.
Qed.

Lemma UpdateWB_weight_frame (dw : ndarray2) (lr regH : R) (b_size : Z)
    (i j : nat) (s : NNUnit) :
  set_w (w s) (UpdateWB_weight dw lr regH b_size i j s).1 = s.
Proof.
  unfold UpdateWB_weight, mbind, M_bind, self, try, assign.
  destruct s as [n p b0 w0 ob ow a0 px]. cbn.
  destruct (truediv (regH * lr) b_size) as [e|q]; [done|].
  destruct (getitem w0 i) as [e|wi]; [done|].
  destruct (getitem1 wi j) as [e|wij]; [done|].
  destruct (getitem dw i) as [e|dwi]; [done|].
  destruct (getitem1 dwi j) as [e|dwij]; [done|].
  destruct (setitem2 w0 i j _) as [e|w']; done.
Qed.

(** ** [UpdateWB]: the bias loop *)

Lemma bias_loop_ends (db : ndarray2) (lr : R) (n : nat) (u0 : NNUnit) :
  has_shape (b u0) n 1 →
  rect db → (n ≤ shape0 db)%nat → (1 ≤ shape1 db)%nat →
  ∃ u', for_ (seq 0 n) (UpdateWB_bias db lr) u0 = (u', inr tt) ∧
        set_b (b u0) u' = u0 ∧
        has_shape (b u') n 1 ∧
        ∀ i, (i < n)%nat →
             ∃ v, entry (b u') i 0 = Some v ∧ bias_step u0 db lr i v.
Proof.
  intros Hb Hdb Hd0 Hd1.
  set (I := λ (k : nat) (s : NNUnit),
    set_b (b u0) s = u0 ∧ has_shape (b s) n 1 ∧
    ∀ i, (i < n)%nat →
      ((i < k)%nat → ∃ v, entry (b s) i 0 = Some v ∧ bias_step u0 db lr i v) ∧
      ((k ≤ i)%nat → entry (b s) i 0 = entry (b u0) i 0)).
  destruct (for_range_ends (UpdateWB_bias db lr) I n) with (u := u0)
    as (u' & E & Hfr & Hsh & Hval).
  - intros k s Hk (Hfr & (Hs0 & Hs1 & Hs) & Hval).
    destruct (rect_has_entry (b s) k 0 Hs) as (bi & bi0 & Hbi & Hbi0); [lia..|].
    destruct (rect_has_entry db k 0 Hdb) as (dbi & dbi0 & Hdi & Hdi0); [lia..|].
    eexists. split; [by apply (UpdateWB_bias_run db lr k s bi dbi bi0 dbi0)|].
    assert (Hlt : (0 < length bi)%nat) by (by eapply lookup_lt_Some).
    split; [exact Hfr|]. split.
    { split; [done|]. split; [done|]. by apply setitem2_rect. }
    intros i Hi. cbn [b set_b]. split.
    + intros Hik. destruct (decide (i = k)) as [->|Hne].
      * eexists. split; [by apply setitem2_entry_eq|].
        exists bi0, dbi0. split; [|split; [|done]].
        -- destruct (Hval k Hk) as [_ Hsame]. rewrite <- Hsame by lia.
           by rewrite (entry_row _ _ _ _ Hbi).
        -- by rewrite (entry_row _ _ _ _ Hdi).
      * rewrite setitem2_entry_ne by congruence.
        apply (Hval i Hi). lia.
    + intros Hik. rewrite (setitem2_entry_ne _ _ _ _ _ Hbi) by (intros [= ?]; lia).
      apply (Hval i Hi). lia.
  - split; [by destruct u0|]. split; [done|]. intros i Hi. split; [lia|done].
  - exists u'. split; [done|]. split; [done|]. split; [done|].
    intros i Hi. by apply (Hval i Hi).
Qed.

(** ** [UpdateWB]: the weight loops *)

Section WeightLoops.

Variables (dw : ndarray2) (lr regH : R) (b_size : Z) (u0 : NNUnit).
Variables n p : nat.
Hypothesis Hsize : divisor b_size.
Hypothesis Hdw : rect dw.
Hypothesis Hdw0 : (n ≤ shape0 dw)%nat.
Hypothesis Hdw1 : (p ≤ shape1 dw)%nat.
Hypothesis Hp : inputCount u0 = p.

(** Rows before [k], and row [k] up to column [m], are written. *)
Let written (k m i j : nat) : Prop := (i < k)%nat ∨ (i = k ∧ (j < m)%nat).

Let Inv (k m : nat) (s : NNUnit) : Prop :=
  set_w (w u0) s = u0 ∧ has_shape (w s) n p ∧
  ∀ i j, (i < n)%nat → (j < p)%nat →
    (written k m i j →
       ∃ v, entry (w s) i j = Some v ∧
            weight_step u0 dw lr regH b_size i j v) ∧
    (¬ written k m i j → entry (w s) i j = entry (w u0) i j).

Lemma weight_row_ends (k : nat) (s : NNUnit) :
  (k < n)%nat → Inv k 0 s →
  ∃ s', for_ (seq 0 p) (UpdateWB_weight dw lr regH b_size k) s = (s', inr tt) ∧
        Inv (S k) 0 s'.
Proof.
  intros Hk Hs.
  destruct (for_range_ends (UpdateWB_weight dw lr regH b_size k) (Inv k) p)
    with (u := s) as (s' & E & Hfr & Hsh & Hval); [|done|].
  - clear s Hs. intros m s Hm (Hfr & (Hs0 & Hs1 & Hs) & Hval).
    destruct (rect_has_entry (w s) k m Hs) as (wi & wij & Hwi & Hwij);
      [lia..|].
    destruct (rect_has_entry dw k m Hdw) as (dwi & dwij & Hdi & Hdij);
      [lia..|].
    eexists. split.
    { by apply (UpdateWB_weight_run dw lr regH b_size k m s wi dwi wij dwij). }
    assert (Hlt : (m < length wi)%nat) by (by eapply lookup_lt_Some).
    split; [exact Hfr|]. split.
    { split; [done|]. split; [done|]. by apply setitem2_rect. }
    intros i j Hi Hj. cbn [w set_w].
    destruct (decide ((i, j) = (k, m))) as [[= -> ->]|Hne].
    + split; [intros _|intros []; right; lia].
      eexists. split; [by apply setitem2_entry_eq|].
      exists wij, dwij. split; [|split; [|done]].
      * destruct (Hval k m Hi Hj) as [_ Hsame].
        rewrite <- Hsame by (intros [?|[_ ?]]; lia).
        by rewrite (entry_row _ _ _ _ Hwi).
      * by rewrite (entry_row _ _ _ _ Hdi).
    + rewrite (setitem2_entry_ne _ _ _ _ _ Hwi) by done.
      destruct (Hval i j Hi Hj) as [Hnew Hold]. split.
      * intros [?|[-> ?]]; apply Hnew; [by left|].
        right. split; [done|].
        destruct (decide (j = m)) as [->|]; [done|lia].
      * intros Hnot. apply Hold. intros [?|[-> ?]]; apply Hnot; [by left|].
        right. split; [done|lia].
  - exists s'. split; [done|]. split; [done|]. split; [done|].
    intros i j Hi Hj. destruct (Hval i j Hi Hj) as [Hnew Hold]. split.
    + intros [?|[_ ?]]; [|lia]. apply Hnew.
      destruct (decide (i = k)) as [->|]; [right; by split|left; lia].
    + intros Hnot. apply Hold. intros [?|[-> ?]]; apply Hnot; left; lia.
Qed.

Lemma weight_loops_end :
  has_shape (w u0) n p →
  ∃ u', for_ (seq 0 n)
          (λ i, s ← self;
                for_ (range (pu s)) (UpdateWB_weight dw lr regH b_size i)) u0
        = (u', inr tt) ∧
        set_w (w u0) u' = u0 ∧
        has_shape (w u') n p ∧
        ∀ i j, (i < n)%nat → (j < p)%nat →
               ∃ v, entry (w u') i j = Some v ∧
                    weight_step u0 dw lr regH b_size i j v.
Proof.
  intros Hw.
  destruct (for_range_ends
              (λ i, s ← self;
                    for_ (range (pu s)) (UpdateWB_weight dw lr regH b_size i))
              (λ k, Inv k 0) n) with (u := u0)
    as (u' & E & Hfr & Hsh & Hval).
  - intros k s Hk Hs.
    assert (Hps : range (pu s) = seq 0 p).
    { destruct Hs as [Hfr _]. unfold range. rewrite <- Hp.
      unfold inputCount. by rewrite <- (f_equal pu Hfr). }
    unfold mbind, M_bind, self. rewrite Hps. by apply weight_row_ends.
  - split; [by destruct u0|]. split; [done|].
    intros i j Hi Hj. split; [intros [?|[_ ?]]; lia|done].
  - exists u'. split; [done|]. split; [done|]. split; [done|].
    intros i j Hi Hj. apply (Hval i j Hi Hj). left. lia.
Qed.

End WeightLoops.

(** ** [UpdateWB]: the whole call *)

Lemma UpdateWB_run (dw db : ndarray2) (lr regH : R) (b_size : Z) (u : NNUnit) :
  UpdateWB dw db lr regH b_size u =
    match for_ (seq 0 (classCount u)) (UpdateWB_bias db lr)
               (set_oldw (Some (w u)) (set_oldb (Some (b u)) u)) with
    | (u1, inr _) =>
        for_ (range (nc u1))
          (λ i, s ← self;
                for_ (range (pu s)) (UpdateWB_weight dw lr regH b_size i)) u1
    | (u1, inl e) => (u1, inl e)
    end.
Proof. reflexivity. Qed.

(** The update with gradients that cover at least the [classCount] by
    [inputCount] weights and the [classCount] biases. *)
Lemma UpdateWB_ends (dw db : ndarray2) (lr regH : R) (b_size : Z) (u : NNUnit) :
  Unit_ok u →
  rect dw → (classCount u ≤ shape0 dw)%nat → (inputCount u ≤ shape1 dw)%nat →
  rect db → (classCount u ≤ shape0 db)%nat → (1 ≤ shape1 db)%nat →
  divisor b_size →
  ∃ u', UpdateWB dw db lr regH b_size u = (u', inr tt) ∧
        set_w (w u) (set_b (b u) u') =
          set_oldw (Some (w u)) (set_oldb (Some (b u)) u) ∧
        has_shape (b u') (classCount u) 1 ∧
        has_shape (w u') (classCount u) (inputCount u) ∧
        (∀ i, (i < classCount u)%nat →
              ∃ v, entry (b u') i 0 = Some v ∧ bias_step u db lr i v) ∧
        (∀ i j, (i < classCount u)%nat → (j < inputCount u)%nat →
                ∃ v, entry (w u') i j = Some v ∧
                     weight_step u dw lr regH b_size i j v).
Proof.
  intros [Hw Hb Ha] Hdw Hdw0 Hdw1 Hdb Hdb0 Hdb1 Hsize.
  rewrite UpdateWB_run.
  set (u0 := set_oldw (Some (w u)) (set_oldb (Some (b u)) u)).
  destruct (bias_loop_ends db lr (classCount u) u0 Hb Hdb Hdb0 Hdb1)
    as (u1 & E1 & Hfr1 & Hb1 & Hbias).
  rewrite E1.
  assert (Hnc1 : nc u1 = nc u) by exact (f_equal nc Hfr1).
  assert (Hpu1 : pu u1 = pu u) by exact (f_equal pu Hfr1).
  assert (Hw1 : w u1 = w u) by exact (f_equal w Hfr1).
  assert (Hnc : range (nc u1) = seq 0 (classCount u))
    by (unfold range, classCount; by rewrite Hnc1).
  assert (Hpu : inputCount u1 = inputCount u)
    by (unfold inputCount; by rewrite Hpu1).
  rewrite Hnc.
  destruct (weight_loops_end dw lr regH b_size u1 (classCount u) (inputCount u)
              Hsize Hdw Hdw0 Hdw1 Hpu) as (u2 & E2 & Hfr2 & Hw2 & Hweights).
  { by rewrite Hw1. }
  exists u2. split; [exact E2|].
  assert (Hb2 : b u2 = b u1) by exact (f_equal b Hfr2).
  split; [|split; [by rewrite Hb2|split; [done|split]]].
  - rewrite <- Hfr1, <- Hfr2 at 1. rewrite Hw1. reflexivity.
  - intros i Hi. rewrite Hb2. exact (Hbias i Hi).
  - intros i j Hi Hj. destruct (Hweights i j Hi Hj) as (v & Hv & Hstep).
    exists v. split; [done|]. unfold weight_step in *. by rewrite <- Hw1.
Qed.

(** ** What a call leaves alone, whether it returns or raises *)

Lemma CalcOut_frame (rel : numpy_release) (x : ndarray2) (u : NNUnit) :
  set_a (a u) (CalcOut rel x u).1 = set_prev_x (Some x) u.
Proof.
  rewrite CalcOut_run.
  apply (for_keeps (CalcOut_body rel x)
           (λ s, set_a (a u) s = set_prev_x (Some x) u)); [|done].
  intros i s Hs. rewrite <- Hs.
  pose proof (CalcOut_body_frame rel x i s) as F.
  destruct (CalcOut_body rel x i s) as [t r]. cbn in *. by rewrite <- F.
Qed.

Lemma weight_row_frame (dw : ndarray2) (lr regH : R) (b_size : Z)
    (i : nat) (l : list nat) (s : NNUnit) :
  set_w (w s) (for_ l (UpdateWB_weight dw lr regH b_size i) s).1 = s.
Proof.
  apply (for_keeps (UpdateWB_weight dw lr regH b_size i)
           (λ t, set_w (w s) t = s)); [|by destruct s].
  intros j t Ht. rewrite <- Ht.
  pose proof (UpdateWB_weight_frame dw lr regH b_size i j t) as F.
  destruct (UpdateWB_weight dw lr regH b_size i j t) as [t' r]. cbn in *.
  by rewrite <- F.
Qed.

Lemma UpdateWB_frame (dw db : ndarray2) (lr regH : R) (b_size : Z)
    (u : NNUnit) :
  set_w (w u) (set_b (b u) (UpdateWB dw db lr regH b_size u).1) =
    set_oldw (Some (w u)) (set_oldb (Some (b u)) u).
Proof.
  rewrite UpdateWB_run.
  set (u0 := set_oldw (Some (w u)) (set_oldb (Some (b u)) u)).
  set (P := λ s : NNUnit, set_w (w u) (set_b (b u) s) = u0).
  assert (H1 : P (for_ (seq 0 (classCount u)) (UpdateWB_bias db lr) u0).1).
  { apply for_keeps; [|done]. intros i s Hs. unfold P. rewrite <- Hs.
    pose proof (UpdateWB_bias_frame db lr i s) as F.
    destruct (UpdateWB_bias db lr i s) as [t r]. cbn in *. by rewrite <- F. }
  destruct (for_ (seq 0 (classCount u)) (UpdateWB_bias db lr) u0)
    as [u1 [e|[]]]; [exact H1|].
  apply for_keeps; [|exact H1]. intros i s Hs. unfold P.
  unfold mbind, M_bind, self. rewrite <- Hs.
  pose proof (weight_row_frame dw lr regH b_size i (range (pu s)) s) as F.
  destruct (for_ (range (pu s)) (UpdateWB_weight dw lr regH b_size i) s)
    as [t r]. cbn in *. by rewrite <- F.
Qed.

(** ** Arguments that are too small *)

Lemma no_entry (m : ndarray2) (i j : nat) (row : list R) :
  rect m → (shape0 m ≤ i ∨ shape1 m ≤ j)%nat →
  cells m !! i = Some row → row !! j = None.
Proof.
  intros Hm [Hi|Hj] Hrow.
  - apply lookup_lt_Some in Hrow. destruct Hm as [Hr _]. lia.
  - apply lookup_ge_None_2. rewrite (rect_row m i row Hm Hrow). lia.
Qed.

Lemma CalcOut_body_raises (rel : numpy_release)
    (x : ndarray2) (i : nat) (s : NNUnit) :
  rect x → rect (w s) →
  (shape1 x ≤ i)%nat ∨ shape0 x ≠ shape1 (w s) →
  ∃ e, (CalcOut_body rel x i s).2 = inl e.
Proof.
  intros Hx Hw Hbad.
  unfold CalcOut_body, mbind, M_bind, self, try, getitem, np_matmul,
    np_transpose1.
  destruct (cells (w s) !! i) as [wi|] eqn:Hwi; cbn [or_raise]; [|by eexists].
  destruct (cells (np_transpose x) !! i) as [xi|] eqn:Hxi; cbn [or_raise];
    [|by eexists].
  destruct (decide (i < shape1 x)%nat) as [Hi|Hi].
  - destruct Hbad as [?|Hlen]; [lia|].
    rewrite transpose_row in Hxi by done. injection Hxi as <-.
    rewrite column_length, (rect_row (w s) i wi Hw Hwi) by done.
    destruct (Nat.eqb_spec (shape1 (w s)) (shape0 x)) as [Heq|_];
      [by rewrite Heq in Hlen|by eexists].
  - rewrite transpose_no_row in Hxi by lia. discriminate.
Qed.

Lemma UpdateWB_bias_raises (db : ndarray2) (lr : R) (i : nat) (s : NNUnit) :
  rect db → (shape0 db ≤ i ∨ shape1 db ≤ 0)%nat →
  ∃ e, (UpdateWB_bias db lr i s).2 = inl e.
Proof.
  intros Hdb Hbad.
  unfold UpdateWB_bias, mbind, M_bind, self, try, getitem, getitem1.
  destruct (cells (b s) !! i) as [bi|]; cbn [or_raise]; [|by eexists].
  destruct (bi !! 0%nat) as [bi0|]; cbn [or_raise]; [|by eexists].
  destruct (cells db !! i) as [dbi|] eqn:Hdbi; cbn [or_raise]; [|by eexists].
  rewrite (no_entry db i 0 dbi Hdb Hbad Hdbi). by eexists.
Qed.

Lemma UpdateWB_weight_raises (dw : ndarray2) (lr regH : R) (b_size : Z)
    (i j : nat) (s : NNUnit) :
  rect dw → (shape0 dw ≤ i ∨ shape1 dw ≤ j)%nat →
  ∃ e, (UpdateWB_weight dw lr regH b_size i j s).2 = inl e.
Proof.
  intros Hdw Hbad.
  unfold UpdateWB_weight, mbind, M_bind, self, try, getitem, getitem1.
  destruct (truediv (regH * lr) b_size) as [e|q]; [by eexists|].
  destruct (cells (w s) !! i) as [wi|]; cbn [or_raise]; [|by eexists].
  destruct (wi !! j) as [wij|]; cbn [or_raise]; [|by eexists].
  destruct (cells dw !! i) as [dwi|] eqn:Hdwi; cbn [or_raise]; [|by eexists].
  rewrite (no_entry dw i j dwi Hdw Hbad Hdwi). by eexists.
Qed.

Lemma CalcOut_raises (rel : numpy_release) (x : ndarray2) (u : NNUnit) :
  Unit_ok u → rect x →
  (shape1 x < classCount u)%nat ∨
    ((0 < classCount u)%nat ∧ shape0 x ≠ inputCount u) →
  ∃ e, (CalcOut rel x u).2 = inl e.
Proof.
  intros [(Hw0 & Hw1 & Hw) _ _] Hx Hbad. rewrite CalcOut_run.
  set (i := match decide (shape1 x < classCount u)%nat with
            | left _ => shape1 x
            | right _ => O
            end).
  apply (for_raises (CalcOut_body rel x) (λ s, w s = w u) _ i).
  - apply elem_of_seq. subst i. destruct (decide _); lia.
  - intros j s Hs. rewrite <- Hs.
    exact (f_equal w (CalcOut_body_frame rel x j s)).
  - intros s Hs. apply CalcOut_body_raises; [done|by rewrite Hs|].
    subst i. destruct (decide _) as [?|Hge]; [by left|].
    right. rewrite Hs, Hw1. destruct Hbad as [?|[_ ?]]; [lia|done].
  - reflexivity.
Qed.

Lemma UpdateWB_raises (dw db : ndarray2) (lr regH : R) (b_size : Z)
    (u : NNUnit) :
  rect dw → rect db → (0 < classCount u)%nat → (0 < inputCount u)%nat →
  (shape0 dw < classCount u ∨ shape1 dw < inputCount u ∨
   shape0 db < classCount u ∨ shape1 db < 1)%nat →
  ∃ e, (UpdateWB dw db lr regH b_size u).2 = inl e.
Proof.
  intros Hdw Hdb Hn Hp Hbad. rewrite UpdateWB_run.
  set (u0 := set_oldw (Some (w u)) (set_oldb (Some (b u)) u)).
  pose proof (for_keeps (UpdateWB_bias db lr)
                (λ s, nc s = nc u ∧ pu s = pu u) (seq 0 (classCount u))) as Hk.
  specialize (Hk (λ i s Hs,
    eq_ind_r (λ t, nc t = nc u ∧ pu t = pu u) Hs
             (UpdateWB_bias_frame db lr i s)) u0 (conj eq_refl eq_refl)).
  destruct (for_ (seq 0 (classCount u)) (UpdateWB_bias db lr) u0)
    as [u1 [e|[]]] eqn:E1; [by eexists|].
  destruct Hk as [Hnc Hpu]. cbn in Hnc, Hpu.
  destruct (decide (shape0 db < classCount u ∨ shape1 db < 1)%nat)
    as [Hb|Hb].
  { (* the bias loop cannot have ended *)
    set (i := match decide (shape0 db < classCount u)%nat with
              | left _ => shape0 db
              | right _ => O
              end).
    destruct (for_raises (UpdateWB_bias db lr) (λ _, True)
                (seq 0 (classCount u)) i) with (u := u0) as [e He];
      [| done | | done |].
    - apply elem_of_seq. subst i. destruct (decide _); lia.
    - intros s _. apply UpdateWB_bias_raises; [done|].
      subst i. destruct (decide _); [left|right]; lia.
    - by rewrite E1 in He. }
  set (i := match decide (shape0 dw < classCount u)%nat with
            | left _ => shape0 dw
            | right _ => O
            end).
  set (j := match decide (shape0 dw < classCount u)%nat with
            | left _ => O
            | right _ => shape1 dw
            end).
  unfold range. rewrite Hnc.
  apply (for_raises _ (λ s, pu s = pu u) _ i).
  - apply elem_of_seq. subst i. unfold classCount in *.
    destruct (decide _); lia.
  - intros k s Hs. unfold mbind, M_bind, self. rewrite <- Hs.
    exact (f_equal pu (weight_row_frame dw lr regH b_size k _ s)).
  - intros s Hs. unfold mbind, M_bind, self. rewrite Hs.
    apply (for_raises _ (λ _, True) _ j); [|done| |done].
    + apply elem_of_seq. subst j. unfold inputCount, classCount in *.
      destruct (decide _); lia.
    + intros t _. apply UpdateWB_weight_raises; [done|].
      subst i j. unfold inputCount, classCount in *.
      destruct (decide _); [left|right]; lia.
  - exact Hpu.
Qed.

(** ** Which exceptions a call can raise *)

Lemma for_raises_only (body : nat → M unit) (Q : exn → Prop) (l : list nat) :
  (∀ i u e, (body i u).2 = inl e → Q e) →
  ∀ u e, (for_ l body u).2 = inl e → Q e.
Proof.
  intros Hbody. induction l as [|i l IH]; intros u e; [done|].
  rewrite for_cons. pose proof (Hbody i u) as Hi.
  destruct (body i u) as [u' [e'|[]]]; cbn in *; [|by apply IH].
  intros [= <-]. by apply Hi.
Qed.

Lemma or_raise_only {A : Type} (e e' : exn) (o : option A) :
  or_raise e o = inl e' → e' = e.
Proof. destruct o; [done|]. by intros [= <-]. Qed.

Lemma setitem2_raises_only (m : ndarray2) (i j : nat) (x : R) (e : exn) :
  setitem2 m i j x = inl e → e = IndexError.
Proof.
  unfold setitem2. destruct (cells m !! i) as [row|]; [|by intros [= <-]].
  destruct (j <? length row)%nat; [done|by intros [= <-]].
Qed.

Lemma CalcOut_body_raises_only (rel : numpy_release)
    (x : ndarray2) (i : nat) (s : NNUnit) (e : exn) :
  (CalcOut_body rel x i s).2 = inl e → e = IndexError ∨ e = ValueError.
Proof.
  unfold CalcOut_body, mbind, M_bind, self, try, assign,
    calcActivation_method, mret, M_ret, getitem.
  destruct (or_raise IndexError (cells (w s) !! i)) as [e1|wi] eqn:E1; cbn [snd].
  { intros [= <-]. left. by eapply or_raise_only. }
  destruct (or_raise IndexError (cells (np_transpose x) !! i))
    as [e2|xi] eqn:E2; cbn [snd].
  { intros [= <-]. left. by eapply or_raise_only. }
  unfold np_matmul.
  destruct (length wi =? length (np_transpose1 xi))%nat; cbn [snd];
    [|intros [= <-]; by right].
  destruct (or_raise IndexError (cells (b s) !! i)) as [e3|bi] eqn:E3; cbn [snd].
  { intros [= <-]. left. by eapply or_raise_only. }
  unfold setitem1. destruct (i <? length (a s))%nat; [|intros [= <-]; by left].
  destruct (calcActivation_nd _) as [|y [|? ?]], rel; cbn [snd]; try done;
    intros [= <-]; by right.
Qed.

Lemma UpdateWB_bias_raises_only (db : ndarray2) (lr : R) (i : nat)
    (s : NNUnit) (e : exn) :
  (UpdateWB_bias db lr i s).2 = inl e → e = IndexError.
Proof.
  unfold UpdateWB_bias, mbind, M_bind, self, try, assign, getitem, getitem1.
  destruct (or_raise IndexError (cells (b s) !! i)) as [e1|bi] eqn:E1; cbn [snd].
  { intros [= <-]. by eapply or_raise_only. }
  destruct (or_raise IndexError (bi !! 0%nat)) as [e2|bi0] eqn:E2; cbn [snd].
  { intros [= <-]. by eapply or_raise_only. }
  destruct (or_raise IndexError (cells db !! i)) as [e3|dbi] eqn:E3; cbn [snd].
  { intros [= <-]. by eapply or_raise_only. }
  destruct (or_raise IndexError (dbi !! 0%nat)) as [e4|dbi0] eqn:E4; cbn [snd].
  { intros [= <-]. by eapply or_raise_only. }
  destruct (setitem2 (b s) i 0 _) as [e5|b'] eqn:E5; cbn [snd]; [|done].
  intros [= <-]. by eapply setitem2_raises_only.
Qed.

Lemma UpdateWB_weight_raises_only (dw : ndarray2) (lr regH : R) (b_size : Z)
    (i j : nat) (s : NNUnit) (e : exn) :
  divisor b_size →
  (UpdateWB_weight dw lr regH b_size i j s).2 = inl e → e = IndexError.
Proof.
  intros Hsize.
  unfold UpdateWB_weight, mbind, M_bind, self, try, assign, getitem,
    getitem1.
  rewrite (truediv_divisor _ _ Hsize).
  destruct (or_raise IndexError (cells (w s) !! i)) as [e1|wi] eqn:E1; cbn [snd].
  { intros [= <-]. by eapply or_raise_only. }
  destruct (or_raise IndexError (wi !! j)) as [e2|wij] eqn:E2; cbn [snd].
  { intros [= <-]. by eapply or_raise_only. }
  destruct (or_raise IndexError (cells dw !! i)) as [e3|dwi] eqn:E3; cbn [snd].
  { intros [= <-]. by eapply or_raise_only. }
  destruct (or_raise IndexError (dwi !! j)) as [e4|dwij] eqn:E4; cbn [snd].
  { intros [= <-]. by eapply or_raise_only. }
  destruct (setitem2 (w s) i j _) as [e5|w'] eqn:E5; cbn [snd]; [|done].
  intros [= <-]. by eapply setitem2_raises_only.
Qed.

Lemma CalcOut_raises_only (rel : numpy_release)
    (x : ndarray2) (u : NNUnit) (e : exn) :
  (CalcOut rel x u).2 = inl e → e = IndexError ∨ e = ValueError.
Proof.
  rewrite CalcOut_run.
  apply (for_raises_only (CalcOut_body rel x)
           (λ e, e = IndexError ∨ e = ValueError)).
  intros i s e'. apply CalcOut_body_raises_only.
Qed.

Lemma UpdateWB_raises_only (dw db : ndarray2) (lr regH : R) (b_size : Z)
    (u : NNUnit) (e : exn) :
  divisor b_size →
  (UpdateWB dw db lr regH b_size u).2 = inl e → e = IndexError.
Proof.
  intros Hsize. rewrite UpdateWB_run.
  destruct (for_ (seq 0 (classCount u)) (UpdateWB_bias db lr) _)
    as [u1 [e1|[]]] eqn:E1.
  - intros [= <-].
    apply (for_raises_only (UpdateWB_bias db lr) (λ e, e = IndexError)
             (seq 0 (classCount u))
             (λ i s e, UpdateWB_bias_raises_only db lr i s e)
             (set_oldw (Some (w u)) (set_oldb (Some (b u)) u))).
    by rewrite E1.
  - apply (for_raises_only _ (λ e, e = IndexError)).
    intros i s e'. unfold mbind, M_bind, self.
    apply (for_raises_only _ (λ e, e = IndexError)). intros j t e''.
    by apply UpdateWB_weight_raises_only.
Qed.

(** ** The sample objects are well formed *)

Lemma unit_2x3_ok : Unit_ok unit_2x3.
Proof. split; repeat split; repeat constructor. Qed.

Lemma rect_input_3x2 : rect input_3x2.
Proof. split; repeat constructor. Qed.

Lemma rect_input_3x3 : rect input_3x3.
Proof. split; repeat constructor. Qed.

Lemma rect_dw_2x3 : rect dw_2x3.
Proof. split; repeat constructor. Qed.

Lemma rect_dw_2x2 : rect dw_2x2.
Proof. split; repeat constructor. Qed.

Lemma rect_db_2x1 : rect db_2x1.
Proof. split; repeat constructor. Qed.

Lemma rect_db_3x1 : rect db_3x1.
Proof. split; repeat constructor. Qed.

(** ** The worked example of the specification

    Weights [[1,0,0],[0,1,0]], zero bias, input columns [1,0,0] and
    [0,1,0]: each neuron sees the weighted sum 1. *)

Example CalcOut_worked :
  CalcOut upto_2_3 input_3x2 unit_2x3 =
    (set_a [calcActivation 1; calcActivation 1]
           (set_prev_x (Some input_3x2) unit_2x3), inr tt).
Proof.
  cbv -[Rplus Rmult Rminus Rdiv Ropp Rinv exp IZR calcActivation].
  unfold calcActivation. do 2 f_equal.
  repeat (f_equal; try lra).
Qed.

(** One update of the same layer with all gradients 1, learning rate 1/2,
    regularisation 1 and a batch of 2: the decay factor is 3/4. *)
Example UpdateWB_worked :
  UpdateWB dw_2x3 db_2x1 (1 / 2) 1 2 unit_2x3 =
    (MkUnit 2 3
       (Nd2 2 1 [[0 - 1 / 2 * 1]; [0 - 1 / 2 * 1]])
       (Nd2 2 3 (map (map (λ wij, (1 - 1 * (1 / 2) / 2) * wij - 1 / 2 * 1))
                     (cells (w unit_2x3))))
       (Some (b unit_2x3)) (Some (w unit_2x3)) [0; 0] None,
     inr tt).
Proof. reflexivity. Qed.

(** ** Line 21 from NumPy 2.4 on *)

(** A loop whose first pass raises stops there. *)
Lemma for_first_raises (body : nat → M unit) (i : nat) (l : list nat)
    (u u' : NNUnit) (e : exn) :
  body i u = (u', inl e) → for_ (i :: l) body u = (u', inl e).
Proof. intros E. by rewrite for_cons, E. Qed.

(** The first neuron computes its value, and the store of line 21
    raises: nothing is written. *)
Lemma CalcOut_store_raises (x : ndarray2) (u : NNUnit) :
  Unit_ok u → rect x → shape0 x = inputCount u →
  (0 < classCount u)%nat → (0 < shape1 x)%nat →
  CalcOut from_2_4 x u = (set_prev_x (Some x) u, inl ValueError).
Proof.
  intros [(Hw0 & Hw1 & Hw) (Hb0 & Hb1 & Hb) Ha] Hx Hx0 Hn Hc.
  rewrite CalcOut_run.
  destruct (classCount u) as [|n] eqn:En; [lia|]. cbn [seq].
  apply for_first_raises.
  destruct (rect_has_row (w u) 0 Hw) as [wi Hwi]; [lia|].
  destruct (rect_has_row (b u) 0 Hb) as [bi Hbi]; [lia|].
  destruct (one_column_row (b u) 0 bi Hb Hb1 Hbi) as [bi0 ->].
  assert (Hlen : (length wi =? length (column 0 x))%nat = true).
  { apply Nat.eqb_eq.
    rewrite (rect_row (w u) 0 wi Hw Hwi), column_length by done. lia. }
  assert (Hpos : (0 <? length (a u))%nat = true) by (apply Nat.ltb_lt; lia).
  unfold CalcOut_body, mbind, M_bind, self, try, assign,
    calcActivation_method, mret, M_ret, getitem, np_matmul, np_transpose1,
    setitem1.
  cbn [w b a set_prev_x]. rewrite Hwi, transpose_row, Hbi by done.
  cbn [or_raise]. rewrite Hlen, Hpos. reflexivity.
Qed.

(** * The claims *)

(** C1: on a unit whose weights are [classCount] by [inputCount] and whose
    bias and activation have [classCount] entries, and an input with
    [classCount] columns of length [inputCount].  With NumPy up to 2.3,
    [CalcOut] returns; it runs its loop from the object in which the
    input is already stored as [prev_x]; afterwards [prev_x] is the
    input, entry [i] of [a] is [calcActivation] of the dot product of
    weight row [i] with column [i] of the input plus [b[i]], for every
    [i] below [classCount], and [w], [b], [oldw], [oldb], [nc] and [pu]
    are as before.  With NumPy from 2.4 on and at least one neuron, the
    store of line 21 raises a [ValueError] at the first neuron (line 20
    adds the one-element array [self.b[i]], where line 26 reads
    [self.b[i][0]]): [prev_x] is the input and no activation is
    written. *)
Theorem CalcOut_forward (u : NNUnit) (x : ndarray2) :
  Unit_ok u → has_shape x (inputCount u) (classCount u) →
  (CalcOut upto_2_3 x u =
     for_ (range (nc u)) (CalcOut_body upto_2_3 x) (set_prev_x (Some x) u) ∧
   ∃ u', CalcOut upto_2_3 x u = (u', inr tt) ∧
         prev_x u' = Some x ∧
         length (a u') = classCount u ∧
         (∀ i, (i < classCount u)%nat →
               ∃ v, a u' !! i = Some v ∧ neuron u x i v) ∧
         w u' = w u ∧ b u' = b u ∧ oldw u' = oldw u ∧ oldb u' = oldb u ∧
         nc u' = nc u ∧ pu u' = pu u) ∧
  ((0 < classCount u)%nat →
   CalcOut from_2_4 x u = (set_prev_x (Some x) u, inl ValueError)).
Proof.
  intros Hu (Hx0 & Hx1 & Hx). split; [split; [reflexivity|]|].
  - destruct (CalcOut_ends x u Hu Hx Hx0) as (u' & E & Hfr & Hlen & Hval);
      [lia|].
    exists u'. split; [exact E|].
    split; [exact (f_equal prev_x Hfr)|]. split; [exact Hlen|].
    split; [exact Hval|].
    split; [exact (f_equal w Hfr)|]. split; [exact (f_equal b Hfr)|].
    split; [exact (f_equal oldw Hfr)|]. split; [exact (f_equal oldb Hfr)|].
    split; [exact (f_equal nc Hfr)|exact (f_equal pu Hfr)].
  - intros Hn. apply CalcOut_store_raises; [done|done|done|done|lia].
Qed.

Lemma CalcOut_forward_witness :
  Unit_ok unit_2x3 ∧ has_shape input_3x2 3 2 ∧
  (∃ u', CalcOut upto_2_3 input_3x2 unit_2x3 = (u', inr tt) ∧
         prev_x u' = Some input_3x2 ∧ w u' = w unit_2x3) ∧
  CalcOut from_2_4 input_3x2 unit_2x3 =
    (set_prev_x (Some input_3x2) unit_2x3, inl ValueError).
Proof.
  split; [exact unit_2x3_ok|].
  assert (Hx : has_shape input_3x2 3 2)
    by (split; [reflexivity|split; [reflexivity|exact rect_input_3x2]]).
  split; [exact Hx|].
  destruct (CalcOut_forward unit_2x3 input_3x2 unit_2x3_ok Hx)
    as ((_ & u' & E & Hp & _ & _ & Hw & _) & Hnew).
  split.
  - exists u'. split; [exact E|]. split; [exact Hp|exact Hw].
  - apply Hnew. cbv; lia.
Defined.




(** C3: [NNUnit(n_classes, n_pu)] never returns an object: whatever the
    allocator, the clock, the random draws and the two counts are,
    [__init__] raises; for two and three, [np.zeros(1, n_classes)]
    raises a [TypeError] once the arrays of lines 9 and 10, of two and
    of six entries, are built. *)
Theorem init_raises :
  (∀ fits now draws n_classes n_pu,
     ∃ e, __init__ fits now draws n_classes n_pu = inl e) ∧
  (∀ fits draws,
     __init__ fits 1762290000 draws 2 3 =
       inl (if fits 2%Z && fits 6%Z then TypeError else MemoryError)).
Proof.
  split.
  - intros fits now draws n_classes n_pu. unfold __init__, mbind, result_bind.
    destruct (np_random_seed now) as [e|_]; [by eexists|].
    destruct (np_zeros2 fits n_classes 1 dtype_default) as [e|b0];
      [by eexists|].
    destruct (np_random_randn fits draws n_classes n_pu) as [e|w0];
      [by eexists|].
    by eexists.
  - intros fits draws.
    unfold __init__, np_zeros2, np_random_randn, np_alloc, mbind, result_bind.
    change (2 * 1)%Z with 2%Z. change (2 * 3)%Z with 6%Z.
    destruct (fits 2%Z), (fits 6%Z); reflexivity.
Qed.

(** C4, as the specification has it, fails on the sample layer of two
    neurons with three inputs each. [UpdateWB] with a bias gradient of
    three entries returns, and so does [CalcOut] on an input with three
    columns (NumPy up to 2.3). [UpdateWB] with a two by two weight
    gradient raises an [IndexError], and by then [oldb] and [b] are no
    longer what they were before the call. *)
Lemma shape_mismatch_unnoticed :
  (Unit_ok unit_2x3 ∧ rect input_3x3 ∧ rect dw_2x3 ∧ rect db_3x1 ∧
   rect dw_2x2 ∧ rect db_2x1) ∧
  (shape1 input_3x3 ≠ classCount unit_2x3 ∧
   (CalcOut upto_2_3 input_3x3 unit_2x3).2 = inr tt) ∧
  (shape0 db_3x1 ≠ classCount unit_2x3 ∧
   (UpdateWB dw_2x3 db_3x1 1 0 1 unit_2x3).2 = inr tt) ∧
  (shape1 dw_2x2 ≠ inputCount unit_2x3 ∧
   (UpdateWB dw_2x2 db_2x1 1 0 1 unit_2x3).2 = inl IndexError ∧
   oldb (UpdateWB dw_2x2 db_2x1 1 0 1 unit_2x3).1 ≠ oldb unit_2x3 ∧
   b (UpdateWB dw_2x2 db_2x1 1 0 1 unit_2x3).1 ≠ b unit_2x3).
Proof.
  split; [|split; [|split]].
  - split; [exact unit_2x3_ok|]. split; [exact rect_input_3x3|].
    split; [exact rect_dw_2x3|]. split; [exact rect_db_3x1|].
    split; [exact rect_dw_2x2|exact rect_db_2x1].
  - split; [by intros [= ?]|reflexivity].
  - split; [by intros [= ?]|reflexivity].
  - split; [by intros [= ?]|]. split; [reflexivity|]. split; [done|].
    cbv -[Rplus Rmult Rminus Rdiv Ropp Rinv exp IZR].
    intros [= H _]. lra.
Qed.

(** C4, amended.  On every NumPy release [CalcOut] raises an
    [IndexError] or a [ValueError], with [b], [w], [oldb] and [oldw] as
    before, when the input has fewer than [classCount] columns or
    columns of a length other than [inputCount].  On an input with more
    columns than that, of the right length, it returns with NumPy up to
    2.3, and raises the [ValueError] of line 21, those fields as
    before, with NumPy from 2.4 on.  [UpdateWB], for a [b_size] that is
    not zero and that [float] converts, raises an [IndexError] when a
    gradient has fewer rows or columns than what it updates, and [oldb]
    and [oldw] then hold the bias and weights from before the call; it
    returns when the gradients have at least those rows and columns. *)
Theorem shape_mismatch_behaviour (u : NNUnit) :
  Unit_ok u → (0 < classCount u)%nat → (0 < inputCount u)%nat →
  (∀ rel x, rect x →
        (shape1 x < classCount u)%nat ∨ shape0 x ≠ inputCount u →
        ∃ u' e, CalcOut rel x u = (u', inl e) ∧
                (e = IndexError ∨ e = ValueError) ∧
                b u' = b u ∧ w u' = w u ∧
                oldb u' = oldb u ∧ oldw u' = oldw u) ∧
  (∀ x, rect x → shape0 x = inputCount u → (classCount u < shape1 x)%nat →
        (∃ u', CalcOut upto_2_3 x u = (u', inr tt) ∧
               b u' = b u ∧ w u' = w u ∧
               oldb u' = oldb u ∧ oldw u' = oldw u) ∧
        (∃ u', CalcOut from_2_4 x u = (u', inl ValueError) ∧
               b u' = b u ∧ w u' = w u ∧
               oldb u' = oldb u ∧ oldw u' = oldw u)) ∧
  (∀ dw db lr regH b_size, rect dw → rect db → divisor b_size →
        (shape0 dw < classCount u ∨ shape1 dw < inputCount u ∨
         shape0 db < classCount u ∨ shape1 db < 1)%nat →
        ∃ u', UpdateWB dw db lr regH b_size u = (u', inl IndexError) ∧
              oldb u' = Some (b u) ∧ oldw u' = Some (w u)) ∧
  (∀ dw db lr regH b_size, rect dw → rect db → divisor b_size →
        (classCount u ≤ shape0 dw ∧ inputCount u ≤ shape1 dw ∧
         classCount u ≤ shape0 db ∧ 1 ≤ shape1 db)%nat →
        ∃ u', UpdateWB dw db lr regH b_size u = (u', inr tt) ∧
              oldb u' = Some (b u) ∧ oldw u' = Some (w u)).
Proof.
  intros Hu Hn Hp. split; [|split; [|split]].
  - intros rel x Hx Hbad.
    destruct (CalcOut_raises rel x u Hu Hx) as [e He].
    { destruct Hbad as [?|?]; [by left|right; by split]. }
    pose proof (CalcOut_raises_only rel x u e He) as Hkind.
    pose proof (CalcOut_frame rel x u) as Hfr.
    destruct (CalcOut rel x u) as [u' r]. cbn in He, Hfr. subst r.
    exists u', e. split; [done|]. split; [done|].
    split; [exact (f_equal b Hfr)|]. split; [exact (f_equal w Hfr)|].
    split; [exact (f_equal oldb Hfr)|exact (f_equal oldw Hfr)].
  - intros x Hx Hx0 Hx1. split.
    + destruct (CalcOut_ends x u Hu Hx Hx0) as (u' & E & Hfr & _); [lia|].
      exists u'. split; [done|].
      split; [exact (f_equal b Hfr)|]. split; [exact (f_equal w Hfr)|].
      split; [exact (f_equal oldb Hfr)|exact (f_equal oldw Hfr)].
    + exists (set_prev_x (Some x) u).
      split; [apply CalcOut_store_raises; [done|done|done|done|lia]|].
      by destruct u.
  - intros dw db lr regH b_size Hdw Hdb Hsize Hbad.
    destruct (UpdateWB_raises dw db lr regH b_size u Hdw Hdb Hn Hp Hbad)
      as [e He].
    pose proof (UpdateWB_raises_only dw db lr regH b_size u e Hsize He) as ->.
    pose proof (UpdateWB_frame dw db lr regH b_size u) as Hfr.
    destruct (UpdateWB dw db lr regH b_size u) as [u' r]. cbn in He, Hfr.
    subst r. exists u'. split; [done|].
    split; [exact (f_equal oldb Hfr)|exact (f_equal oldw Hfr)].
  - intros dw db lr regH b_size Hdw Hdb Hsize (H1 & H2 & H3 & H4).
    destruct (UpdateWB_ends dw db lr regH b_size u Hu Hdw H1 H2 Hdb H3 H4 Hsize)
      as (u' & E & Hfr & _).
    exists u'. split; [done|].
    split; [exact (f_equal oldb Hfr)|exact (f_equal oldw Hfr)].
Qed.

Lemma shape_mismatch_behaviour_witness :
  Unit_ok unit_2x3 ∧ (0 < classCount unit_2x3)%nat ∧
  (0 < inputCount unit_2x3)%nat ∧
  (∃ u', CalcOut upto_2_3 input_3x3 unit_2x3 = (u', inr tt) ∧
         w u' = w unit_2x3) ∧
  (∃ u', UpdateWB dw_2x2 db_2x1 1 0 1 unit_2x3 = (u', inl IndexError) ∧
         oldb u' = Some (b unit_2x3)).
Proof.
  assert (Hn : (0 < classCount unit_2x3)%nat) by (cbv; lia).
  assert (Hp : (0 < inputCount unit_2x3)%nat) by (cbv; lia).
  assert (H1 : divisor 1) by (split; [discriminate|reflexivity]).
  split; [exact unit_2x3_ok|]. split; [exact Hn|]. split; [exact Hp|].
  destruct (shape_mismatch_behaviour unit_2x3 unit_2x3_ok Hn Hp)
    as (_ & Hwide & Hsmall & _).
  split.
  - destruct (Hwide input_3x3 rect_input_3x3) as ((u' & E & _ & Hw & _) & _);
      [reflexivity|cbv; lia|].
    exists u'. split; [exact E|exact Hw].
  - destruct (Hsmall dw_2x2 db_2x1 1 0 1%Z rect_dw_2x2 rect_db_2x1 H1)
      as (u' & E & Hob & _); [right; left; cbv; lia|].
    exists u'. split; [exact E|exact Hob].
Defined.














(** C10: whatever the gradients are, and whether [UpdateWB] returns or
    raises, [nc], [pu], [a] and [prev_x] are afterwards what they were
    before the call. *)
Theorem UpdateWB_leaves_rest (u : NNUnit) (dw db : ndarray2) (lr regH : R)
    (b_size : Z) :
  let u' := (UpdateWB dw db lr regH b_size u).1 in
  nc u' = nc u ∧ pu u' = pu u ∧ a u' = a u ∧ prev_x u' = prev_x u.
Proof.
  pose proof (UpdateWB_frame dw db lr regH b_size u) as Hfr. cbn zeta.
  split; [exact (f_equal nc Hfr)|]. split; [exact (f_equal pu Hfr)|].
  split; [exact (f_equal a Hfr)|exact (f_equal prev_x Hfr)].
Qed.

(** * Further properties of the code *)

(** ** Loops, continued *)

Lemma for_app (body : nat → M unit) (l1 l2 : list nat) (u : NNUnit) :
  for_ (l1 ++ l2) body u =
  match for_ l1 body u with
  | (u', inr _) => for_ l2 body u'
  | (u', inl e) => (u', inl e)
  end.
Proof.
  revert u. induction l1 as [|i l1 IH]; intros u; [reflexivity|].
  cbn [app]. rewrite !for_cons.
  destruct (body i u) as [u' [e|[]]]; [reflexivity|apply IH].
Qed.

Lemma seq_split (k n : nat) :
  (k ≤ n)%nat → seq 0 n = seq 0 k ++ seq k (n - k).
Proof.
  intros Hk. replace n with (k + (n - k))%nat at 1 by lia.
  by rewrite seq_app.
Qed.

(** ** Arrays are determined by their shape and entries *)

Lemma rows_eq (c : nat) (r1 r2 : list R) :
  length r1 = c → length r2 = c →
  (∀ j, (j < c)%nat → r1 !! j = r2 !! j) → r1 = r2.
Proof.
  intros H1 H2 Hj. apply list_eq. intros j.
  destruct (decide (j < c)%nat) as [?|?]; [by apply Hj|].
  rewrite !lookup_ge_None_2 by lia. reflexivity.
Qed.

Lemma ndarray2_eq (m1 m2 : ndarray2) (r c : nat) :
  has_shape m1 r c → has_shape m2 r c →
  (∀ i j, (i < r)%nat → (j < c)%nat → entry m1 i j = entry m2 i j) →
  m1 = m2.
Proof.
  intros (H10 & H11 & H1) (H20 & H21 & H2) Hentry.
  destruct m1 as [s10 s11 c1], m2 as [s20 s21 c2]. cbn in *. subst.
  assert (L1 : length c1 = r) by exact (proj1 H1).
  assert (L2 : length c2 = r) by exact (proj1 H2).
  f_equal. apply list_eq. intros i.
  destruct (decide (i < r)%nat) as [Hi|Hi].
  - destruct (rect_has_row _ i H1 Hi) as [r1 Hr1].
    destruct (rect_has_row _ i H2 Hi) as [r2 Hr2].
    cbn in Hr1, Hr2. rewrite Hr1, Hr2. f_equal.
    apply (rows_eq c).
    + exact (rect_row _ i r1 H1 Hr1).
    + exact (rect_row _ i r2 H2 Hr2).
    + intros j Hj. specialize (Hentry i j Hi Hj).
      unfold entry in Hentry. cbn in Hentry.
      by rewrite Hr1, Hr2 in Hentry.
  - rewrite !lookup_ge_None_2 by lia. reflexivity.
Qed.

(** ** [CalcOut] in closed form *)

Lemma set_a_same (u : NNUnit) : set_a (a u) u = u.
Proof. by destruct u. Qed.

(** The first [k] passes write the first [k] activations. *)
Lemma CalcOut_passes (x : ndarray2) (u : NNUnit) (k : nat) :
  Unit_ok u → rect x → shape0 x = inputCount u →
  (k ≤ classCount u)%nat → (k ≤ shape1 x)%nat →
  for_ (seq 0 k) (CalcOut_body upto_2_3 x) u =
    (set_a (map (forward_value u x) (seq 0 k) ++ drop k (a u)) u, inr tt).
Proof.
  intros [(Hw0 & Hw1 & Hw) (Hb0 & Hb1 & Hb) Ha] Hx Hx0.
  induction k as [|k IH]; intros Hk Hkx.
  - cbn [seq map app]. rewrite drop_0, set_a_same. reflexivity.
  - rewrite seq_S, for_app, IH by lia. cbn [Nat.add].
    set (s := set_a (map (forward_value u x) (seq 0 k) ++ drop k (a u)) u).
    destruct (rect_has_row (w u) k Hw) as [wi Hwi]; [lia|].
    destruct (rect_has_row (b u) k Hb) as [bi Hbi]; [lia|].
    destruct (one_column_row (b u) k bi Hb Hb1 Hbi) as [bi0 ->].
    destruct (lookup_lt_is_Some_2 (a u) k) as [y Hy]; [lia|].
    rewrite for_cons.
    rewrite (CalcOut_body_run x k s wi (column k x) bi0); cbn [for_].
    + unfold mret, M_ret, s, set_a. cbn. do 2 f_equal.
      rewrite insert_app_r_alt by (rewrite length_map, length_seq; lia).
      rewrite length_map, length_seq, Nat.sub_diag.
      rewrite (drop_S _ _ _ Hy). cbn [insert list_insert].
      rewrite map_app, <- app_assoc. cbn [map app]. do 2 f_equal.
      unfold forward_value. rewrite !nth_lookup, Hwi, Hbi. reflexivity.
    + exact Hwi.
    + apply transpose_row. lia.
    + rewrite (rect_row (w u) k wi Hw Hwi), column_length by done. lia.
    + exact Hbi.
    + unfold s. cbn. rewrite length_app, length_map, length_seq, length_drop.
      lia.
Qed.

Lemma CalcOut_closed (x : ndarray2) (u : NNUnit) :
  Unit_ok u → rect x → shape0 x = inputCount u →
  (classCount u ≤ shape1 x)%nat →
  CalcOut upto_2_3 x u =
    (set_a (map (forward_value u x) (seq 0 (classCount u)))
           (set_prev_x (Some x) u), inr tt).
Proof.
  intros Hu Hx Hx0 Hx1. rewrite CalcOut_run.
  assert (Hu' : Unit_ok (set_prev_x (Some x) u)) by (by destruct Hu).
  rewrite (CalcOut_passes x (set_prev_x (Some x) u) (classCount u) Hu' Hx Hx0)
    by (unfold classCount in *; cbn; lia).
  rewrite drop_ge, app_nil_r by (cbn; destruct Hu; lia).
  reflexivity.
Qed.

Lemma forward_value_ext (u u' : NNUnit) (x x' : ndarray2) (i : nat) :
  w u' = w u → b u' = b u → column i x' = column i x →
  forward_value u' x' i = forward_value u x i.
Proof. intros Hw Hb Hc. unfold forward_value. by rewrite Hw, Hb, Hc. Qed.

(** X1: an input with fewer columns than neurons, with NumPy up to
    2.3. With [k] columns of the right length, [k] below [classCount],
    [CalcOut] raises an [IndexError]; by then [prev_x] is the input and
    exactly the first [k] activations are overwritten, the others being
    as before. *)
Theorem CalcOut_short_input (x : ndarray2) (u : NNUnit) :
  Unit_ok u → rect x → shape0 x = inputCount u →
  (shape1 x < classCount u)%nat →
  CalcOut upto_2_3 x u =
    (set_a (map (forward_value u x) (seq 0 (shape1 x))
            ++ drop (shape1 x) (a u))
           (set_prev_x (Some x) u), inl IndexError).
Proof.
  intros Hu Hx Hx0 Hx1. rewrite CalcOut_run.
  assert (Hu' : Unit_ok (set_prev_x (Some x) u)) by (by destruct Hu).
  rewrite (seq_split (shape1 x)), for_app by lia.
  rewrite (CalcOut_passes x _ (shape1 x) Hu' Hx Hx0)
    by (unfold classCount, inputCount in *; cbn; lia).
  destruct (classCount u - shape1 x)%nat as [|d] eqn:Hd; [lia|].
  cbn [seq]. apply for_first_raises.
  destruct Hu as [(Hw0 & _ & Hw) _ _].
  destruct (rect_has_row (w u) (shape1 x) Hw) as [wi Hwi]; [lia|].
  unfold CalcOut_body, mbind, M_bind, self, try, getitem.
  cbn [w set_a set_prev_x]. rewrite Hwi, transpose_no_row by lia.
  reflexivity.
Qed.

Lemma CalcOut_short_input_witness :
  Unit_ok unit_2x3 ∧ rect (Nd2 3 1 [[1]; [0]; [0]]) ∧
  (CalcOut upto_2_3 (Nd2 3 1 [[1]; [0]; [0]]) unit_2x3).2 = inl IndexError.
Proof.
  assert (Hx : rect (Nd2 3 1 [[1]; [0]; [0]])) by (split; repeat constructor).
  split; [exact unit_2x3_ok|]. split; [exact Hx|].
  rewrite (CalcOut_short_input _ unit_2x3 unit_2x3_ok Hx);
    [reflexivity|reflexivity|cbv; lia].
Defined.

(** X2: only the first [classCount] columns of the input count, with
    NumPy up to 2.3. Two inputs with columns of length [inputCount] that
    agree on their first [classCount] columns give the same activations,
    and the same object but for [prev_x]; both calls return. *)
Theorem CalcOut_leading_columns (x x' : ndarray2) (u : NNUnit) :
  Unit_ok u → rect x → rect x' →
  shape0 x = inputCount u → shape0 x' = inputCount u →
  (classCount u ≤ shape1 x)%nat → (classCount u ≤ shape1 x')%nat →
  (∀ i, (i < classCount u)%nat → column i x = column i x') →
  ∃ act, CalcOut upto_2_3 x u = (set_a act (set_prev_x (Some x) u), inr tt) ∧
         CalcOut upto_2_3 x' u = (set_a act (set_prev_x (Some x') u), inr tt).
Proof.
  intros Hu Hx Hx' H0 H0' H1 H1' Hcol.
  exists (map (forward_value u x) (seq 0 (classCount u))).
  split; [by apply CalcOut_closed|].
  rewrite (CalcOut_closed x' u) by done.
  assert (Hmap : map (forward_value u x') (seq 0 (classCount u)) =
                 map (forward_value u x) (seq 0 (classCount u))).
  { apply map_ext_in. intros i Hi. apply in_seq in Hi.
    apply forward_value_ext; [done|done|]. symmetry. apply Hcol. lia. }
  by rewrite Hmap.
Qed.

Lemma CalcOut_leading_columns_witness :
  ∃ act, CalcOut upto_2_3 input_3x2 unit_2x3 =
           (set_a act (set_prev_x (Some input_3x2) unit_2x3), inr tt) ∧
         CalcOut upto_2_3 input_3x3 unit_2x3 =
           (set_a act (set_prev_x (Some input_3x3) unit_2x3), inr tt).
Proof.
  apply (CalcOut_leading_columns input_3x2 input_3x3 unit_2x3 unit_2x3_ok
           rect_input_3x2 rect_input_3x3); try reflexivity; try (cbv; lia).
  intros i Hi. destruct i as [|[|i]]; [reflexivity|reflexivity|].
  cbv in Hi. lia.
Defined.

(** X3: with NumPy up to 2.3, a forward pass starts afresh. What [a]
    and [prev_x] held before the call has no effect on the object after
    it. *)
Theorem CalcOut_overwrites (x : ndarray2) (u : NNUnit) (act : list R)
    (px : option ndarray2) :
  Unit_ok u → rect x → shape0 x = inputCount u →
  (classCount u ≤ shape1 x)%nat → length act = classCount u →
  CalcOut upto_2_3 x (set_prev_x px (set_a act u)) = CalcOut upto_2_3 x u.
Proof.
  intros Hu Hx Hx0 Hx1 Hact.
  assert (Hu' : Unit_ok (set_prev_x px (set_a act u))) by (by destruct Hu).
  rewrite (CalcOut_closed x u), (CalcOut_closed x _ Hu') by done.
  reflexivity.
Qed.

Lemma CalcOut_overwrites_witness :
  CalcOut upto_2_3 input_3x2
    (set_prev_x (Some input_3x3) (set_a [7; 7] unit_2x3)) =
  CalcOut upto_2_3 input_3x2 unit_2x3.
Proof.
  apply (CalcOut_overwrites input_3x2 unit_2x3 [7; 7] (Some input_3x3)
           unit_2x3_ok rect_input_3x2); reflexivity.
Defined.

(** X4: with NumPy up to 2.3, the forward pass is idempotent. Calling
    [CalcOut] again with the same input returns and leaves the object as
    the first call left it. *)
Theorem CalcOut_idempotent (x : ndarray2) (u : NNUnit) :
  Unit_ok u → rect x → shape0 x = inputCount u →
  (classCount u ≤ shape1 x)%nat →
  CalcOut upto_2_3 x (CalcOut upto_2_3 x u).1 = CalcOut upto_2_3 x u.
Proof.
  intros Hu Hx Hx0 Hx1.
  assert (Hlen : length (map (forward_value u x) (seq 0 (classCount u)))
                 = classCount u) by (by rewrite length_map, length_seq).
  rewrite (CalcOut_closed x u) at 1 by done. cbn [fst].
  pose proof (CalcOut_closed x u Hu Hx Hx0 Hx1) as E.
  rewrite E.
  assert (Hu' : Unit_ok (set_a (map (forward_value u x) (seq 0 (classCount u)))
                               (set_prev_x (Some x) u))) by (by destruct Hu).
  rewrite (CalcOut_closed x _ Hu') by done. reflexivity.
Qed.

Lemma CalcOut_idempotent_witness :
  CalcOut upto_2_3 input_3x2 (CalcOut upto_2_3 input_3x2 unit_2x3).1 =
  CalcOut upto_2_3 input_3x2 unit_2x3.
Proof.
  apply (CalcOut_idempotent input_3x2 unit_2x3 unit_2x3_ok rect_input_3x2);
    [reflexivity|cbv; lia].
Defined.

(** ** The shapes are kept, whatever the arguments and the outcome *)

Lemma setitem2_keeps_shape (m m' : ndarray2) (i j r c : nat) (x : R) :
  setitem2 m i j x = inr m' → has_shape m r c → has_shape m' r c.
Proof.
  unfold setitem2. destruct (cells m !! i) as [row|] eqn:Hrow; [|done].
  destruct (j <? length row)%nat eqn:Hj; [|done].
  intros [= <-] (H0 & H1 & Hm). split; [done|]. split; [done|].
  apply Nat.ltb_lt in Hj. by apply setitem2_rect.
Qed.

Lemma CalcOut_body_length (rel : numpy_release)
    (x : ndarray2) (i : nat) (s : NNUnit) :
  length (a (CalcOut_body rel x i s).1) = length (a s).
Proof.
  unfold CalcOut_body, mbind, M_bind, self, try, assign,
    calcActivation_method, mret, M_ret, setitem1.
  destruct (getitem (w s) i) as [e|wi]; [done|].
  destruct (getitem (np_transpose x) i) as [e|xi]; [done|].
  destruct (np_matmul wi (np_transpose1 xi)) as [e|d]; [done|].
  destruct (getitem (b s) i) as [e|bi]; [done|].
  destruct (i <? length (a s))%nat; [|done].
  destruct (calcActivation_nd _) as [|y [|? ?]], rel; try done.
  cbn. by rewrite length_insert.
Qed.

Lemma UpdateWB_bias_shape (db : ndarray2) (lr : R) (i r c : nat) (s : NNUnit) :
  has_shape (b s) r c → has_shape (b (UpdateWB_bias db lr i s).1) r c.
Proof.
  intros Hs.
  unfold UpdateWB_bias, mbind, M_bind, self, try, assign.
  destruct (getitem (b s) i) as [e|bi]; [done|].
  destruct (getitem1 bi 0) as [e|bi0]; [done|].
  destruct (getitem db i) as [e|dbi]; [done|].
  destruct (getitem1 dbi 0) as [e|dbi0]; [done|].
  destruct (setitem2 (b s) i 0 _) as [e|b'] eqn:E; [done|].
  cbn. by eapply setitem2_keeps_shape.
Qed.

Lemma UpdateWB_weight_shape (dw : ndarray2) (lr regH : R) (b_size : Z)
    (i j r c : nat) (s : NNUnit) :
  has_shape (w s) r c →
  has_shape (w (UpdateWB_weight dw lr regH b_size i j s).1) r c.
Proof.
  intros Hs.
  unfold UpdateWB_weight, mbind, M_bind, self, try, assign.
  destruct (truediv (regH * lr) b_size) as [e|q]; [done|].
  destruct (getitem (w s) i) as [e|wi]; [done|].
  destruct (getitem1 wi j) as [e|wij]; [done|].
  destruct (getitem dw i) as [e|dwi]; [done|].
  destruct (getitem1 dwi j) as [e|dwij]; [done|].
  destruct (setitem2 (w s) i j _) as [e|w'] eqn:E; [done|].
  cbn. by eapply setitem2_keeps_shape.
Qed.

(** X5: [CalcOut] keeps the shapes of the object for every input and on
    every NumPy release, whether it returns or raises: weights and bias
    are untouched and [a] keeps its length. *)
Theorem CalcOut_keeps_shapes (rel : numpy_release) (x : ndarray2) (u : NNUnit) :
  Unit_ok u → Unit_ok (CalcOut rel x u).1.
Proof.
  intros [Hw Hb Ha].
  pose proof (CalcOut_frame rel x u) as Hfr.
  assert (Hlen : length (a (CalcOut rel x u).1) = length (a u)).
  { rewrite CalcOut_run.
    apply (for_keeps (CalcOut_body rel x) (λ s, length (a s) = length (a u)));
      [|done].
    intros i s Hs. by rewrite CalcOut_body_length. }
  destruct (CalcOut rel x u) as [u' r]. cbn in *.
  assert (Hw' : w u' = w u) by exact (f_equal w Hfr).
  assert (Hb' : b u' = b u) by exact (f_equal b Hfr).
  assert (Hnc : nc u' = nc u) by exact (f_equal nc Hfr).
  assert (Hpu : pu u' = pu u) by exact (f_equal pu Hfr).
  split; unfold classCount, inputCount in *.
  - by rewrite Hw', Hnc, Hpu.
  - by rewrite Hb', Hnc.
  - by rewrite Hlen, Hnc.
Qed.

Lemma CalcOut_keeps_shapes_witness :
  Unit_ok unit_2x3 ∧ Unit_ok (CalcOut upto_2_3 dw_2x2 unit_2x3).1.
Proof.
  split; [exact unit_2x3_ok|].
  exact (CalcOut_keeps_shapes upto_2_3 dw_2x2 unit_2x3 unit_2x3_ok).
Defined.

(** X6: [UpdateWB] keeps the shapes of the object for all arguments,
    whether it returns or raises: [b] and [w] keep their shapes and [a]
    is untouched. *)
Theorem UpdateWB_keeps_shapes (dw db : ndarray2) (lr regH : R) (b_size : Z)
    (u : NNUnit) :
  Unit_ok u → Unit_ok (UpdateWB dw db lr regH b_size u).1.
Proof.
  intros [Hw Hb Ha].
  pose proof (UpdateWB_frame dw db lr regH b_size u) as Hfr.
  set (P := λ s : NNUnit, has_shape (b s) (classCount u) 1 ∧
                          has_shape (w s) (classCount u) (inputCount u)).
  assert (HP : P (UpdateWB dw db lr regH b_size u).1).
  { rewrite UpdateWB_run.
    set (u0 := set_oldw (Some (w u)) (set_oldb (Some (b u)) u)).
    assert (H1 : P (for_ (seq 0 (classCount u)) (UpdateWB_bias db lr) u0).1).
    { apply for_keeps; [|by split]. intros i s [Hbs Hws]. split.
      - by apply UpdateWB_bias_shape.
      - assert (E : w (UpdateWB_bias db lr i s).1 = w s)
          by exact (f_equal w (UpdateWB_bias_frame db lr i s)).
        by rewrite E. }
    destruct (for_ (seq 0 (classCount u)) (UpdateWB_bias db lr) u0)
      as [u1 [e|[]]]; [exact H1|].
    apply for_keeps; [|exact H1]. intros i s Hs.
    unfold mbind, M_bind, self.
    apply for_keeps; [|exact Hs]. intros j t [Hbt Hwt]. split.
    - assert (E : b (UpdateWB_weight dw lr regH b_size i j t).1 = b t)
        by exact (f_equal b (UpdateWB_weight_frame dw lr regH b_size i j t)).
      by rewrite E.
    - by apply UpdateWB_weight_shape. }
  destruct HP as [Hb' Hw'].
  destruct (UpdateWB dw db lr regH b_size u) as [u' r]. cbn in *.
  assert (Hnc : nc u' = nc u) by exact (f_equal nc Hfr).
  assert (Hpu : pu u' = pu u) by exact (f_equal pu Hfr).
  assert (Ha' : a u' = a u) by exact (f_equal a Hfr).
  split; unfold classCount, inputCount in *.
  - by rewrite Hnc, Hpu.
  - by rewrite Hnc.
  - by rewrite Hnc, Ha'.
Qed.

Lemma UpdateWB_keeps_shapes_witness :
  Unit_ok unit_2x3 ∧ Unit_ok (UpdateWB dw_2x2 db_3x1 1 0 0 unit_2x3).1.
Proof.
  split; [exact unit_2x3_ok|].
  exact (UpdateWB_keeps_shapes dw_2x2 db_3x1 1 0 0 unit_2x3 unit_2x3_ok).
Defined.

(** ** The bias loop in closed form *)

Lemma set_b_same (u : NNUnit) : set_b (b u) u = u.
Proof. by destruct u. Qed.

Lemma ndarray2_eta (m : ndarray2) : Nd2 (shape0 m) (shape1 m) (cells m) = m.
Proof. by destruct m. Qed.

(** The first [k] passes write the first [k] biases. *)
Lemma bias_passes (db : ndarray2) (lr : R) (n k : nat) (u : NNUnit) :
  has_shape (b u) n 1 → rect db → (1 ≤ shape1 db)%nat →
  (k ≤ n)%nat → (k ≤ shape0 db)%nat →
  for_ (seq 0 k) (UpdateWB_bias db lr) u =
    (set_b (Nd2 (shape0 (b u)) (shape1 (b u))
                (map (λ i, [bias_value (b u) db lr i]) (seq 0 k)
                 ++ drop k (cells (b u)))) u, inr tt).
Proof.
  intros (Hb0 & Hb1 & Hb) Hdb Hd1.
  induction k as [|k IH]; intros Hk Hkd.
  - cbn [seq map app]. rewrite drop_0, ndarray2_eta, set_b_same. reflexivity.
  - rewrite seq_S, for_app, IH by lia. cbn [Nat.add].
    set (s := set_b _ u).
    destruct (rect_has_row (b u) k Hb) as [bi Hbi]; [lia|].
    destruct (one_column_row (b u) k bi Hb Hb1 Hbi) as [bi0 ->].
    destruct (rect_has_entry db k 0 Hdb) as (dbi & dbi0 & Hdi & Hdi0); [lia..|].
    assert (Hlen : length (map (λ i, [bias_value (b u) db lr i]) (seq 0 k)) = k)
      by (by rewrite length_map, length_seq).
    assert (Hrow : cells (b s) !! k = Some [bi0]).
    { unfold s. cbn. rewrite lookup_app_r by lia.
      rewrite Hlen, Nat.sub_diag, lookup_drop, Nat.add_0_r. exact Hbi. }
    rewrite for_cons.
    rewrite (UpdateWB_bias_run db lr k s [bi0] dbi bi0 dbi0 Hrow eq_refl Hdi Hdi0).
    cbn [for_]. unfold mret, M_ret, s, set_b. cbn. do 3 f_equal.
    rewrite insert_app_r_alt by lia.
    rewrite Hlen, Nat.sub_diag, (drop_S _ _ _ Hbi). cbn [insert list_insert].
    rewrite map_app, <- app_assoc. cbn [map app]. do 3 f_equal.
    unfold bias_value. rewrite !nth_lookup, Hbi, Hdi. cbn.
    by rewrite Hdi0.
Qed.

(** X7: a bias gradient with fewer rows than neurons. With [k] rows,
    [k] below [classCount], [UpdateWB] raises an [IndexError]; by then
    [oldb] and [oldw] hold the bias and weights from before the call,
    exactly the first [k] biases are updated, and the weights are
    untouched, whatever the weight gradient is. *)
Theorem UpdateWB_short_bias_gradient (dw db : ndarray2) (lr regH : R)
    (b_size : Z) (u : NNUnit) :
  Unit_ok u → rect db → (1 ≤ shape1 db)%nat →
  (shape0 db < classCount u)%nat →
  UpdateWB dw db lr regH b_size u =
    (set_b (Nd2 (shape0 (b u)) (shape1 (b u))
                (map (λ i, [bias_value (b u) db lr i]) (seq 0 (shape0 db))
                 ++ drop (shape0 db) (cells (b u))))
           (set_oldw (Some (w u)) (set_oldb (Some (b u)) u)),
     inl IndexError).
Proof.
  intros [Hw Hb Ha] Hdb Hd1 Hk. rewrite UpdateWB_run.
  set (u0 := set_oldw (Some (w u)) (set_oldb (Some (b u)) u)).
  rewrite (seq_split (shape0 db)), for_app by lia.
  rewrite (bias_passes db lr (classCount u) (shape0 db) u0 Hb Hdb Hd1)
    by lia.
  destruct (classCount u - shape0 db)%nat as [|d] eqn:Hd; [lia|].
  cbn [seq]. set (s := set_b _ u0).
  assert (E : UpdateWB_bias db lr (shape0 db) s = (s, inl IndexError)).
  { destruct Hb as (Hb0 & Hb1 & Hbr).
    destruct (rect_has_row (b u) (shape0 db) Hbr) as [bi Hbi]; [lia|].
    destruct (one_column_row (b u) _ bi Hbr Hb1 Hbi) as [bi0 ->].
    assert (Hrow : cells (b s) !! shape0 db = Some [bi0]).
    { unfold s. cbn. rewrite lookup_app_r
        by (rewrite length_map, length_seq; lia).
      rewrite length_map, length_seq, Nat.sub_diag, lookup_drop, Nat.add_0_r.
      exact Hbi. }
    unfold UpdateWB_bias, mbind, M_bind, self, try, getitem, getitem1.
    rewrite Hrow. cbn [or_raise lookup list_lookup].
    rewrite (lookup_ge_None_2 (cells db)) by (destruct Hdb as [-> _]; lia).
    reflexivity. }
  by rewrite (for_first_raises _ _ _ _ _ _ E).
Qed.

Lemma UpdateWB_short_bias_gradient_witness :
  Unit_ok unit_2x3 ∧ rect (Nd2 1 1 [[1]]) ∧
  (UpdateWB dw_2x3 (Nd2 1 1 [[1]]) 1 0 1 unit_2x3).2 = inl IndexError.
Proof.
  assert (Hdb : rect (Nd2 1 1 [[1]])) by (split; repeat constructor).
  split; [exact unit_2x3_ok|]. split; [exact Hdb|].
  rewrite (UpdateWB_short_bias_gradient dw_2x3 _ 1 0 1 unit_2x3
             unit_2x3_ok Hdb); [reflexivity|cbv; lia|cbv; lia].
Defined.

(** ** A batch size that line 29 cannot divide by *)

Lemma truediv_zero (x : R) : truediv x 0 = inl ZeroDivisionError.
Proof. reflexivity. Qed.

Lemma truediv_overflow (x : R) (n : Z) :
  (float_max_int ≤ Z.abs n)%Z → truediv x n = inl OverflowError.
Proof.
  intros Hn. unfold truediv, float_of_int.
  apply Z.ltb_ge in Hn. by rewrite Hn.
Qed.

(** When the division of line 29 raises, it does so at the first
    weight, after the whole bias loop. *)
Lemma UpdateWB_division_raises (dw db : ndarray2) (lr regH : R) (b_size : Z)
    (u : NNUnit) (e : exn) :
  truediv (regH * lr) b_size = inl e →
  Unit_ok u → (0 < classCount u)%nat → (0 < inputCount u)%nat →
  rect db → (classCount u ≤ shape0 db)%nat → (1 ≤ shape1 db)%nat →
  UpdateWB dw db lr regH b_size u =
    (set_b (Nd2 (shape0 (b u)) (shape1 (b u))
                (map (λ i, [bias_value (b u) db lr i])
                     (seq 0 (classCount u))))
           (set_oldw (Some (w u)) (set_oldb (Some (b u)) u)),
     inl e).
Proof.
  intros Hdiv [Hw Hb Ha] Hn Hp Hdb Hd0 Hd1. rewrite UpdateWB_run.
  set (u0 := set_oldw (Some (w u)) (set_oldb (Some (b u)) u)).
  rewrite (bias_passes db lr (classCount u) (classCount u) u0 Hb Hdb Hd1)
    by lia.
  assert (Hlen : length (cells (b u0)) = classCount u).
  { destruct Hb as (Hb0 & _ & [Hbr _]). cbn. lia. }
  rewrite drop_ge by lia. rewrite app_nil_r.
  set (s := set_b _ u0).
  change (range (nc s)) with (seq 0 (classCount u)).
  destruct (classCount u) as [|n] eqn:En; [lia|].
  cbn [seq]. apply for_first_raises.
  unfold mbind, M_bind, self.
  change (range (pu s)) with (seq 0 (inputCount u)).
  destruct (inputCount u) as [|p] eqn:Ep; [lia|].
  cbn [seq]. apply for_first_raises.
  unfold UpdateWB_weight, mbind, M_bind, try. by rewrite Hdiv.
Qed.

(** X8: a batch size of zero. On a layer with at least one neuron and
    one input, [UpdateWB] raises a [ZeroDivisionError] at the first
    weight; by then [oldb] and [oldw] are set and every bias is updated,
    and no weight is, whatever the weight gradient is. *)
Theorem UpdateWB_zero_batch (dw db : ndarray2) (lr regH : R) (u : NNUnit) :
  Unit_ok u → (0 < classCount u)%nat → (0 < inputCount u)%nat →
  rect db → (classCount u ≤ shape0 db)%nat → (1 ≤ shape1 db)%nat →
  UpdateWB dw db lr regH 0 u =
    (set_b (Nd2 (shape0 (b u)) (shape1 (b u))
                (map (λ i, [bias_value (b u) db lr i])
                     (seq 0 (classCount u))))
           (set_oldw (Some (w u)) (set_oldb (Some (b u)) u)),
     inl ZeroDivisionError).
Proof.
  intros Hu Hn Hp Hdb Hd0 Hd1.
  by apply UpdateWB_division_raises; [apply truediv_zero|..].
Qed.

Lemma UpdateWB_zero_batch_witness :
  Unit_ok unit_2x3 ∧ rect db_2x1 ∧
  (UpdateWB dw_2x2 db_2x1 1 1 0 unit_2x3).2 = inl ZeroDivisionError.
Proof.
  split; [exact unit_2x3_ok|]. split; [exact rect_db_2x1|].
  rewrite (UpdateWB_zero_batch dw_2x2 db_2x1 1 1 unit_2x3 unit_2x3_ok);
    [reflexivity|cbv; lia|cbv; lia|exact rect_db_2x1|cbv; lia|cbv; lia].
Defined.

(** X20: a batch size that [float] does not convert, [2**1024 - 2**970]
    or more in absolute value. On a layer with at least one neuron and
    one input, [UpdateWB] raises an [OverflowError] at the first weight;
    by then [oldb] and [oldw] are set and every bias is updated, and no
    weight is, whatever the weight gradient is. *)
Theorem UpdateWB_huge_batch (dw db : ndarray2) (lr regH : R) (b_size : Z)
    (u : NNUnit) :
  (float_max_int ≤ Z.abs b_size)%Z →
  Unit_ok u → (0 < classCount u)%nat → (0 < inputCount u)%nat →
  rect db → (classCount u ≤ shape0 db)%nat → (1 ≤ shape1 db)%nat →
  UpdateWB dw db lr regH b_size u =
    (set_b (Nd2 (shape0 (b u)) (shape1 (b u))
                (map (λ i, [bias_value (b u) db lr i])
                     (seq 0 (classCount u))))
           (set_oldw (Some (w u)) (set_oldb (Some (b u)) u)),
     inl OverflowError).
Proof.
  intros Hsize Hu Hn Hp Hdb Hd0 Hd1.
  by apply UpdateWB_division_raises; [apply truediv_overflow|..].
Qed.

Lemma UpdateWB_huge_batch_witness :
  (float_max_int ≤ Z.abs (- 2 ^ 1024))%Z ∧ Unit_ok unit_2x3 ∧ rect db_2x1 ∧
  (UpdateWB dw_2x2 db_2x1 1 1 (- 2 ^ 1024) unit_2x3).2 = inl OverflowError.
Proof.
  assert (H : (float_max_int ≤ Z.abs (- 2 ^ 1024))%Z)
    by (vm_compute; discriminate).
  split; [exact H|]. split; [exact unit_2x3_ok|]. split; [exact rect_db_2x1|].
  rewrite (UpdateWB_huge_batch dw_2x2 db_2x1 1 1 (- 2 ^ 1024) unit_2x3 H
             unit_2x3_ok);
    [reflexivity|cbv; lia|cbv; lia|exact rect_db_2x1|cbv; lia|cbv; lia].
Defined.

(** ** Updates determined by their entries *)

Lemma unit_of_frame (u' u0 : NNUnit) (b0 w0 : ndarray2) :
  set_w w0 (set_b b0 u') = u0 → u' = set_w (w u') (set_b (b u') u0).
Proof. intros <-. by destruct u'. Qed.

(** X9: a learning rate of zero. With finite numbers throughout,
    gradients that cover the weights and the bias, and a batch size
    other than zero that [float] converts, [UpdateWB] returns and
    changes no bias and no weight: only [oldb] and [oldw] are set. *)
Theorem UpdateWB_zero_rate (dw db : ndarray2) (regH : R) (b_size : Z)
    (u : NNUnit) :
  Unit_ok u →
  rect dw → (classCount u ≤ shape0 dw)%nat → (inputCount u ≤ shape1 dw)%nat →
  rect db → (classCount u ≤ shape0 db)%nat → (1 ≤ shape1 db)%nat →
  divisor b_size →
  UpdateWB dw db 0 regH b_size u =
    (set_oldw (Some (w u)) (set_oldb (Some (b u)) u), inr tt).
Proof.
  intros Hu Hdw Hdw0 Hdw1 Hdb Hdb0 Hdb1 Hsize.
  destruct (UpdateWB_ends dw db 0 regH b_size u Hu Hdw Hdw0 Hdw1 Hdb Hdb0
              Hdb1 Hsize) as (u' & E & Hfr & Hb & Hw & Hbias & Hweights).
  rewrite E. f_equal.
  assert (Eb : b u' = b u).
  { destruct Hu as [_ Hbu _]. apply (ndarray2_eq _ _ (classCount u) 1 Hb Hbu).
    intros i j Hi Hj. replace j with 0%nat by lia.
    destruct (Hbias i Hi) as (v & -> & bi & dbi & -> & _ & ->).
    f_equal. lra. }
  assert (Ew : w u' = w u).
  { destruct Hu as [Hwu _ _].
    apply (ndarray2_eq _ _ (classCount u) (inputCount u) Hw Hwu).
    intros i j Hi Hj.
    destruct (Hweights i j Hi Hj) as (v & -> & wij & dwij & -> & _ & ->).
    f_equal. unfold Rdiv. ring. }
  rewrite (unit_of_frame u' _ _ _ Hfr), Eb, Ew. reflexivity.
Qed.

Lemma UpdateWB_zero_rate_witness :
  Unit_ok unit_2x3 ∧ rect dw_2x3 ∧ rect db_3x1 ∧
  (UpdateWB dw_2x3 db_3x1 0 1 2 unit_2x3).1 =
    set_oldw (Some (w unit_2x3)) (set_oldb (Some (b unit_2x3)) unit_2x3).
Proof.
  split; [exact unit_2x3_ok|]. split; [exact rect_dw_2x3|].
  split; [exact rect_db_3x1|].
  rewrite (UpdateWB_zero_rate dw_2x3 db_3x1 1 2 unit_2x3 unit_2x3_ok
             rect_dw_2x3); [reflexivity|cbv; lia|cbv; lia|exact rect_db_3x1
             |cbv; lia|cbv; lia|split; [discriminate|reflexivity]].
Defined.

(** Two bodies that agree on the passes of the loop, wherever [P]
    holds, give the same loop; [P] is kept by every pass. *)
Lemma for_ext (P : NNUnit → Prop) (body body' : nat → M unit) (l : list nat) :
  (∀ i s, P s → P (body i s).1) →
  (∀ i s, i ∈ l → P s → body i s = body' i s) →
  ∀ s, P s → for_ l body s = for_ l body' s.
Proof.
  intros Hkeep. induction l as [|i l IH]; intros Hext s Hs; [reflexivity|].
  rewrite !for_cons, <- (Hext i s) by (done || by left).
  pose proof (Hkeep i s Hs) as Hs'.
  destruct (body i s) as [s' [e|[]]]; [reflexivity|].
  apply IH; [|exact Hs']. intros j t Hj. apply Hext. by right.
Qed.

(** A pass of the bias loop reads the bias gradient at row [i], column
    0, and nowhere else. *)
Lemma UpdateWB_bias_ext (db db' : ndarray2) (lr : R) (i : nat) (s : NNUnit) :
  rect db → (i < shape0 db)%nat → (1 ≤ shape1 db)%nat →
  rect db' → (i < shape0 db')%nat → (1 ≤ shape1 db')%nat →
  entry db i 0 = entry db' i 0 →
  UpdateWB_bias db lr i s = UpdateWB_bias db' lr i s.
Proof.
  intros Hdb Hi Hc Hdb' Hi' Hc' Hentry.
  destruct (rect_has_entry db i 0 Hdb) as (r & v & Hr & Hv); [lia..|].
  destruct (rect_has_entry db' i 0 Hdb') as (r' & v' & Hr' & Hv'); [lia..|].
  unfold entry in Hentry. rewrite Hr, Hr' in Hentry. cbn in Hentry.
  rewrite Hv, Hv' in Hentry. injection Hentry as <-.
  unfold UpdateWB_bias, mbind, M_bind, self, try, getitem, getitem1.
  rewrite Hr, Hr'. cbn [or_raise]. rewrite Hv, Hv'. reflexivity.
Qed.

(** A pass of the weight loop reads the weight gradient at row [i],
    column [j], and nowhere else. *)
Lemma UpdateWB_weight_ext (dw dw' : ndarray2) (lr regH : R) (b_size : Z)
    (i j : nat) (s : NNUnit) :
  rect dw → (i < shape0 dw)%nat → (j < shape1 dw)%nat →
  rect dw' → (i < shape0 dw')%nat → (j < shape1 dw')%nat →
  entry dw i j = entry dw' i j →
  UpdateWB_weight dw lr regH b_size i j s =
  UpdateWB_weight dw' lr regH b_size i j s.
Proof.
  intros Hdw Hi Hj Hdw' Hi' Hj' Hentry.
  destruct (rect_has_entry dw i j Hdw) as (r & v & Hr & Hv); [lia..|].
  destruct (rect_has_entry dw' i j Hdw') as (r' & v' & Hr' & Hv'); [lia..|].
  unfold entry in Hentry. rewrite Hr, Hr' in Hentry. cbn in Hentry.
  rewrite Hv, Hv' in Hentry. injection Hentry as <-.
  unfold UpdateWB_weight, mbind, M_bind, self, try, getitem, getitem1.
  rewrite Hr, Hr'. cbn [or_raise]. rewrite Hv, Hv'. reflexivity.
Qed.

(** X10: only the leading part of the gradients counts. Two pairs of
    gradients that cover the weights and the bias and agree on the first
    [classCount] rows and [inputCount] columns of the weight gradient and
    on the first column of the first [classCount] rows of the bias
    gradient give the same object. *)
Theorem UpdateWB_leading_entries (dw dw' db db' : ndarray2) (lr regH : R)
    (b_size : Z) (u : NNUnit) :
  Unit_ok u → b_size ≠ 0%Z →
  rect dw → (classCount u ≤ shape0 dw)%nat → (inputCount u ≤ shape1 dw)%nat →
  rect db → (classCount u ≤ shape0 db)%nat → (1 ≤ shape1 db)%nat →
  rect dw' → (classCount u ≤ shape0 dw')%nat →
  (inputCount u ≤ shape1 dw')%nat →
  rect db' → (classCount u ≤ shape0 db')%nat → (1 ≤ shape1 db')%nat →
  (∀ i j, (i < classCount u)%nat → (j < inputCount u)%nat →
          entry dw i j = entry dw' i j) →
  (∀ i, (i < classCount u)%nat → entry db i 0 = entry db' i 0) →
  UpdateWB dw db lr regH b_size u = UpdateWB dw' db' lr regH b_size u.
Proof.
  intros Hu Hsize Hdw Hdw0 Hdw1 Hdb Hdb0 Hdb1 Hdw' Hdw0' Hdw1' Hdb' Hdb0'
    Hdb1' Hw_agree Hb_agree.
  set (P := λ s : NNUnit, nc s = nc u ∧ pu s = pu u).
  assert (Hbias : ∀ i s, P s → P (UpdateWB_bias db lr i s).1).
  { intros i s [Hn Hp].
    pose proof (UpdateWB_bias_frame db lr i s) as Hfr. split.
    - rewrite <- Hn. exact (f_equal nc Hfr).
    - rewrite <- Hp. exact (f_equal pu Hfr). }
  assert (Hweight : ∀ i j s, P s →
            P (UpdateWB_weight dw lr regH b_size i j s).1).
  { intros i j s [Hn Hp].
    pose proof (UpdateWB_weight_frame dw lr regH b_size i j s) as Hfr. split.
    - rewrite <- Hn. exact (f_equal nc Hfr).
    - rewrite <- Hp. exact (f_equal pu Hfr). }
  rewrite !UpdateWB_run.
  set (u0 := set_oldw (Some (w u)) (set_oldb (Some (b u)) u)).
  assert (Hu0 : P u0) by (by split).
  rewrite <- (for_ext P (UpdateWB_bias db lr) (UpdateWB_bias db' lr)
                (seq 0 (classCount u)) Hbias); [|
    intros i s Hi _; apply elem_of_seq in Hi;
    apply UpdateWB_bias_ext; [done|lia|done|done|lia|done|apply Hb_agree; lia]
    |exact Hu0].
  pose proof (for_keeps (UpdateWB_bias db lr) P (seq 0 (classCount u)) Hbias
                u0 Hu0) as Hu1.
  destruct (for_ (seq 0 (classCount u)) (UpdateWB_bias db lr) u0)
    as [u1 [e|[]]]; [reflexivity|]. cbn [fst] in Hu1.
  apply (for_ext P); [| |exact Hu1].
  - intros i s Hs. unfold mbind, M_bind, self.
    apply for_keeps; [|exact Hs]. intros j t. apply Hweight.
  - intros i s Hi Hs. unfold mbind, M_bind, self.
    destruct Hu1 as [Hn1 _]. unfold range in Hi. rewrite Hn1 in Hi.
    fold (classCount u) in Hi. apply elem_of_seq in Hi.
    apply (for_ext P); [intros j t; apply Hweight| |exact Hs].
    intros j t Hj _. destruct Hs as [_ Hps]. unfold range in Hj.
    rewrite Hps in Hj. fold (inputCount u) in Hj. apply elem_of_seq in Hj.
    apply UpdateWB_weight_ext; [done|lia|lia|done|lia|lia|].
    apply Hw_agree; lia.
Qed.

Lemma UpdateWB_leading_entries_witness :
  UpdateWB (Nd2 2 4 [[1; 1; 1; 9]; [1; 1; 1; 9]]) db_3x1 1 1 2 unit_2x3 =
  UpdateWB dw_2x3 db_2x1 1 1 2 unit_2x3.
Proof.
  assert (Hwide : rect (Nd2 2 4 [[1; 1; 1; 9]; [1; 1; 1; 9]]))
    by (split; repeat constructor).
  apply (UpdateWB_leading_entries _ dw_2x3 db_3x1 db_2x1 1 1 2 unit_2x3
           unit_2x3_ok); try discriminate; try (cbv; lia);
    try exact Hwide; try exact rect_dw_2x3; try exact rect_db_3x1;
    try exact rect_db_2x1.
  - intros i j Hi Hj.
    destruct i as [|[|i]]; [| |cbv in Hi; lia];
      (destruct j as [|[|[|j]]]; [reflexivity..|cbv in Hj; lia]).
  - intros i Hi. destruct i as [|[|i]]; [reflexivity..|cbv in Hi; lia].
Defined.



(** ** The exceptions of each method *)

Lemma UpdateWB_weight_raises_kinds (dw : ndarray2) (lr regH : R) (b_size : Z)
    (i j : nat) (s : NNUnit) (e : exn) :
  (UpdateWB_weight dw lr regH b_size i j s).2 = inl e →
  e = IndexError ∨ (e = ZeroDivisionError ∧ b_size = 0%Z)
  ∨ (e = OverflowError ∧ (float_max_int ≤ Z.abs b_size)%Z).
Proof.
  destruct (Z.le_gt_cases float_max_int (Z.abs b_size)) as [Hbig|Hfits].
  - unfold UpdateWB_weight, mbind, M_bind, try.
    rewrite (truediv_overflow _ _ Hbig). cbn [snd].
    intros [= <-]. right. by right.
  - destruct (decide (b_size = 0%Z)) as [->|Hsize].
    + unfold UpdateWB_weight, mbind, M_bind, try.
      rewrite truediv_zero. cbn [snd]. intros [= <-]. right. by left.
    + intros He. left.
      by apply (UpdateWB_weight_raises_only dw lr regH b_size i j s e).
Qed.

(** X12: [CalcOut] raises nothing but an [IndexError] or a [ValueError],
    for every object and every input, on every NumPy release. *)
Theorem CalcOut_exceptions (rel : numpy_release) (x : ndarray2) (u : NNUnit)
    (e : exn) :
  (CalcOut rel x u).2 = inl e → e = IndexError ∨ e = ValueError.
Proof. exact (CalcOut_raises_only rel x u e). Qed.

Lemma CalcOut_exceptions_witness :
  (CalcOut upto_2_3 dw_2x2 unit_2x3).2 = inl ValueError ∧
  (ValueError = IndexError ∨ ValueError = ValueError).
Proof.
  assert (E : (CalcOut upto_2_3 dw_2x2 unit_2x3).2 = inl ValueError)
    by reflexivity.
  split; [exact E|].
  exact (CalcOut_exceptions upto_2_3 dw_2x2 unit_2x3 ValueError E).
Defined.

(** X13: [UpdateWB] raises nothing but an [IndexError], a
    [ZeroDivisionError] or an [OverflowError]: the second only when
    [b_size] is zero, the third only when [b_size] is [2**1024 - 2**970]
    or more in absolute value, for every object and all arguments. *)
Theorem UpdateWB_exceptions (dw db : ndarray2) (lr regH : R) (b_size : Z)
    (u : NNUnit) (e : exn) :
  (UpdateWB dw db lr regH b_size u).2 = inl e →
  e = IndexError ∨ (e = ZeroDivisionError ∧ b_size = 0%Z)
  ∨ (e = OverflowError ∧ (float_max_int ≤ Z.abs b_size)%Z).
Proof.
  rewrite UpdateWB_run.
  destruct (for_ (seq 0 (classCount u)) (UpdateWB_bias db lr) _)
    as [u1 [e1|[]]] eqn:E1.
  - intros [= <-]. left.
    apply (for_raises_only (UpdateWB_bias db lr) (λ e, e = IndexError)
             (seq 0 (classCount u))
             (λ i s e, UpdateWB_bias_raises_only db lr i s e)
             (set_oldw (Some (w u)) (set_oldb (Some (b u)) u))).
    by rewrite E1.
  - set (Q := λ e : exn,
               e = IndexError ∨ (e = ZeroDivisionError ∧ b_size = 0%Z)
               ∨ (e = OverflowError ∧ (float_max_int ≤ Z.abs b_size)%Z)).
    apply (for_raises_only _ Q).
    intros i s e'. unfold mbind, M_bind, self.
    apply (for_raises_only _ Q).
    intros j t e''. apply UpdateWB_weight_raises_kinds.
Qed.

Lemma UpdateWB_exceptions_witness :
  (UpdateWB dw_2x2 db_2x1 1 0 1 unit_2x3).2 = inl IndexError ∧
  (IndexError = IndexError ∨ (IndexError = ZeroDivisionError ∧ 1%Z = 0%Z)
   ∨ (IndexError = OverflowError ∧ (float_max_int ≤ Z.abs 1)%Z)).
Proof.
  assert (E : (UpdateWB dw_2x2 db_2x1 1 0 1 unit_2x3).2 = inl IndexError)
    by reflexivity.
  split; [exact E|].
  exact (UpdateWB_exceptions dw_2x2 db_2x1 1 0 1 unit_2x3 IndexError E).
Defined.

(** ** A layer without neurons *)

(** X14: when [nc] is zero or negative, both loops are empty: [CalcOut]
    returns for every input, on every NumPy release, and only stores it,
    and [UpdateWB] returns for all arguments, a batch size of zero
    included, and only takes its snapshots. *)
Theorem no_neurons (u : NNUnit) :
  (nc u ≤ 0)%Z →
  (∀ rel x, CalcOut rel x u = (set_prev_x (Some x) u, inr tt)) ∧
  (∀ dw db lr regH b_size,
     UpdateWB dw db lr regH b_size u =
       (set_oldw (Some (w u)) (set_oldb (Some (b u)) u), inr tt)).
Proof.
  intros Hn.
  assert (H0 : classCount u = 0%nat) by (unfold classCount; lia).
  split.
  - intros rel x. rewrite CalcOut_run, H0. reflexivity.
  - intros dw db lr regH b_size. rewrite UpdateWB_run, H0. cbn [seq for_].
    unfold mret, M_ret. cbn [nc set_oldw set_oldb]. unfold range.
    fold (classCount u). rewrite H0. reflexivity.
Qed.

Lemma no_neurons_witness :
  (0 ≤ 0)%Z ∧
  CalcOut upto_2_3 dw_2x2
    (MkUnit 0 3 (Nd2 0 1 []) (Nd2 0 3 []) None None [] None) =
    (MkUnit 0 3 (Nd2 0 1 []) (Nd2 0 3 []) None None [] (Some dw_2x2), inr tt).
Proof.
  assert (H : (0 ≤ 0)%Z) by lia.
  split; [exact H|].
  exact (proj1 (no_neurons
                  (MkUnit 0 3 (Nd2 0 1 []) (Nd2 0 3 []) None None [] None) H)
               upto_2_3 dw_2x2).
Defined.

(** ** Fields a method never reads *)

(** A change [f] of the object that every pass commutes with commutes
    with the loop. *)
Lemma for_commutes (f : NNUnit → NNUnit) (body : nat → M unit) (l : list nat) :
  (∀ i s, body i (f s) = (f (body i s).1, (body i s).2)) →
  ∀ s, for_ l body (f s) = (f (for_ l body s).1, (for_ l body s).2).
Proof.
  intros Hbody. induction l as [|i l IH]; intros s; [reflexivity|].
  rewrite !for_cons, Hbody.
  destruct (body i s) as [s' [e|[]]]; cbn [fst snd]; [reflexivity|apply IH].
Qed.

Lemma CalcOut_body_snapshots (rel : numpy_release)
    (ob ow : option ndarray2) (x : ndarray2) (i : nat) (s : NNUnit) :
  CalcOut_body rel x i (set_oldw ow (set_oldb ob s)) =
    (set_oldw ow (set_oldb ob (CalcOut_body rel x i s).1),
     (CalcOut_body rel x i s).2).
Proof.
  unfold CalcOut_body, mbind, M_bind, self, try, assign,
    calcActivation_method, mret, M_ret.
  destruct s as [n p b0 w0 ob0 ow0 a0 px]. cbn.
  destruct (getitem w0 i) as [e|wi]; [done|].
  destruct (getitem (np_transpose x) i) as [e|xi]; [done|].
  destruct (np_matmul wi (np_transpose1 xi)) as [e|d]; [done|].
  destruct (getitem b0 i) as [e|bi]; [done|].
  destruct (setitem1 rel a0 i _) as [e|a']; done.
Qed.

Lemma UpdateWB_bias_rest (act : list R) (px : option ndarray2)
    (db : ndarray2) (lr : R) (i : nat) (s : NNUnit) :
  UpdateWB_bias db lr i (set_prev_x px (set_a act s)) =
    (set_prev_x px (set_a act (UpdateWB_bias db lr i s).1),
     (UpdateWB_bias db lr i s).2).
Proof.
  unfold UpdateWB_bias, mbind, M_bind, self, try, assign.
  destruct s as [n p b0 w0 ob0 ow0 a0 px0]. cbn.
  destruct (getitem b0 i) as [e|bi]; [done|].
  destruct (getitem1 bi 0) as [e|bi0]; [done|].
  destruct (getitem db i) as [e|dbi]; [done|].
  destruct (getitem1 dbi 0) as [e|dbi0]; [done|].
  destruct (setitem2 b0 i 0 _) as [e|b']; done.
Qed.

Lemma UpdateWB_weight_rest (act : list R) (px : option ndarray2)
    (dw : ndarray2) (lr regH : R) (b_size : Z) (i j : nat) (s : NNUnit) :
  UpdateWB_weight dw lr regH b_size i j (set_prev_x px (set_a act s)) =
    (set_prev_x px (set_a act (UpdateWB_weight dw lr regH b_size i j s).1),
     (UpdateWB_weight dw lr regH b_size i j s).2).
Proof.
  unfold UpdateWB_weight, mbind, M_bind, self, try, assign.
  destruct s as [n p b0 w0 ob0 ow0 a0 px0]. cbn.
  destruct (truediv (regH * lr) b_size) as [e|q]; [done|].
  destruct (getitem w0 i) as [e|wi]; [done|].
  destruct (getitem1 wi j) as [e|wij]; [done|].
  destruct (getitem dw i) as [e|dwi]; [done|].
  destruct (getitem1 dwi j) as [e|dwij]; [done|].
  destruct (setitem2 w0 i j _) as [e|w']; done.
Qed.

(** X17: the forward pass neither reads nor writes the snapshots, on
    any NumPy release. Whatever [oldb] and [oldw] hold, the call has the
    same outcome, computes the same object otherwise, and hands them
    back. *)
Theorem CalcOut_ignores_snapshots (rel : numpy_release)
    (ob ow : option ndarray2) (x : ndarray2) (u : NNUnit) :
  CalcOut rel x (set_oldw ow (set_oldb ob u)) =
    (set_oldw ow (set_oldb ob (CalcOut rel x u).1), (CalcOut rel x u).2).
Proof.
  rewrite !CalcOut_run.
  exact (for_commutes (λ s, set_oldw ow (set_oldb ob s)) (CalcOut_body rel x) _
           (CalcOut_body_snapshots rel ob ow x) (set_prev_x (Some x) u)).
Qed.

(** X18: the update reads none of [a], [prev_x], [oldb] and [oldw].
    Whatever they hold before the call, the outcome, the bias, the
    weights and the snapshots after it are the same, and [a] and
    [prev_x] are handed back. *)
Theorem UpdateWB_ignores_rest (act : list R) (px ob ow : option ndarray2)
    (dw db : ndarray2) (lr regH : R) (b_size : Z) (u : NNUnit) :
  UpdateWB dw db lr regH b_size
    (set_prev_x px (set_a act (set_oldw ow (set_oldb ob u)))) =
  (set_prev_x px (set_a act (UpdateWB dw db lr regH b_size u).1),
   (UpdateWB dw db lr regH b_size u).2).
Proof.
  rewrite !UpdateWB_run.
  set (g := λ s, set_prev_x px (set_a act s)).
  set (u0 := set_oldw (Some (w u)) (set_oldb (Some (b u)) u)).
  change (set_oldw _ (set_oldb _ (set_prev_x px _))) with (g u0).
  change (classCount (set_prev_x px _)) with (classCount u).
  rewrite (for_commutes g (UpdateWB_bias db lr) _
             (UpdateWB_bias_rest act px db lr) u0).
  destruct (for_ (seq 0 (classCount u)) (UpdateWB_bias db lr) u0)
    as [u1 [e|[]]]; cbn [fst snd]; [reflexivity|].
  change (nc (g u1)) with (nc u1).
  apply (for_commutes g). intros i s.
  unfold mbind, M_bind, self. change (pu (g s)) with (pu s).
  apply (for_commutes g). intros j t. apply UpdateWB_weight_rest.
Qed.

(** X19: an input whose columns have the wrong length. On a layer with
    at least one neuron and an input with at least one column,
    [CalcOut] raises a [ValueError] at the first neuron, on every NumPy
    release: [prev_x] is the input and no activation is written. *)
Theorem CalcOut_wrong_length (rel : numpy_release) (x : ndarray2) (u : NNUnit) :
  Unit_ok u → rect x → (0 < classCount u)%nat → (0 < shape1 x)%nat →
  shape0 x ≠ inputCount u →
  CalcOut rel x u = (set_prev_x (Some x) u, inl ValueError).
Proof.
  intros [(Hw0 & Hw1 & Hw) _ _] Hx Hn Hc Hlen. rewrite CalcOut_run.
  destruct (classCount u) as [|n] eqn:En; [lia|]. cbn [seq].
  apply for_first_raises.
  destruct (rect_has_row (w u) 0 Hw) as [wi Hwi]; [lia|].
  unfold CalcOut_body, mbind, M_bind, self, try, getitem, np_matmul,
    np_transpose1.
  cbn [w set_prev_x]. rewrite Hwi, transpose_row by done. cbn [or_raise].
  rewrite (rect_row (w u) 0 wi Hw Hwi), column_length by done.
  destruct (Nat.eqb_spec (shape1 (w u)) (shape0 x)) as [Heq|_];
    [congruence|reflexivity].
Qed.

Lemma CalcOut_wrong_length_witness :
  Unit_ok unit_2x3 ∧ rect dw_2x2 ∧
  CalcOut upto_2_3 dw_2x2 unit_2x3 =
    (set_prev_x (Some dw_2x2) unit_2x3, inl ValueError).
Proof.
  split; [exact unit_2x3_ok|]. split; [exact rect_dw_2x2|].
  apply (CalcOut_wrong_length upto_2_3 dw_2x2 unit_2x3 unit_2x3_ok
           rect_dw_2x2);
    [cbv; lia|cbv; lia|discriminate].
Defined.

(** ** Line 16 on binary64 numbers *)

(** X21: in binary64 [calcActivation] returns exactly one half at zero,
    for every routine [np.exp] that returns 1 at zero. *)
Theorem calcActivation_f64_half (np_exp : float → float) :
  np_exp (PrimFloat.opp 0) = 1%float →
  calcActivation_f64 np_exp 0 = 0.5%float.
Proof. intros H. unfold calcActivation_f64. by rewrite H. Qed.

Lemma calcActivation_f64_half_witness :
  exp_nearest (PrimFloat.opp 0) = 1%float ∧
  calcActivation_f64 exp_nearest 0 = 0.5%float.
Proof.
  assert (H : exp_nearest (PrimFloat.opp 0) = 1%float)
    by (vm_compute; reflexivity).
  split; [exact H|exact (calcActivation_f64_half exp_nearest H)].
Defined.
